(** * covid_data: the tracking database and its filters

    A shallow embedding of [helpers.py], [models.py], [filters.py] and
    [database.py].  Python values that reach the filters are modelled
    by the tagged type [pyvalue]; exceptions by the error monad
    [result]; the two [defaultdict(list)] indexes by [gmap]s together
    with the insert-on-miss behaviour of [defaultdict.__getitem__]; the
    generator returned by [query] by the list of objects it yields
    together with the way it ends. *)

From Stdlib Require Import ZArith Ascii String List Bool Lia.
From stdpp Require Import gmap strings list fin_maps.

Local Open Scope Z_scope.

(** ** Python values and exceptions *)

(** [datetime.date]: year, month, day. *)
Record pydate := Date { year : Z; month : Z; day : Z }.

(** [datetime.datetime]: a calendar date and a time of day. *)
Record datetime := DateTime {
  dt_date : pydate;
  hour : Z;
  minute : Z;
  second : Z;
  microsecond : Z
}.

(** The values that occur as attributes and reference values. *)
Inductive pyvalue :=
| VNone
| VInt (n : Z)
| VStr (s : string)
| VDate (d : pydate)
| VDateTime (dt : datetime).

#[global] Instance pydate_eq_dec : EqDecision pydate.
Proof. solve_decision. Defined.
#[global] Instance datetime_eq_dec : EqDecision datetime.
Proof. solve_decision. Defined.
#[global] Instance pyvalue_eq_dec : EqDecision pyvalue.
Proof. solve_decision. Defined.

(** The exceptions the modelled code can raise. *)
Inductive exn := UnsupportedCriterionError | TypeError.

#[global] Instance exn_eq_dec : EqDecision exn.
Proof. solve_decision. Defined.

(** A computation that returns a value or raises. *)
Inductive result (A : Type) :=
| Ok (a : A)
| Raise (e : exn).
Arguments Ok {A} a.
Arguments Raise {A} e.

#[global] Instance result_eq_dec {A} `{EqDecision A} : EqDecision (result A).
Proof. solve_decision. Defined.

#[global] Instance result_ret : MRet result := fun A a => Ok a.

#[global] Instance result_bind : MBind result := fun A B k m =>
  match m with
  | Ok a => k a
  | Raise e => Raise e
  end.

(** [bool(v)]: [None], [0] and the empty string are falsy; dates and
    datetimes are always truthy. *)
Definition truthy (v : pyvalue) : bool :=
  match v with
  | VNone => false
  | VInt n => negb (n =? 0)
  | VStr s => negb (String.eqb s "")
  | VDate _ => true
  | VDateTime _ => true
  end.

(** Lexicographic chaining of two comparisons. *)
Definition lex (c1 c2 : comparison) : comparison :=
  match c1 with
  | Eq => c2
  | _ => c1
  end.

Definition date_compare (a b : pydate) : comparison :=
  lex (year a ?= year b) (lex (month a ?= month b) (day a ?= day b)).

Definition datetime_compare (a b : datetime) : comparison :=
  lex (date_compare (dt_date a) (dt_date b))
    (lex (hour a ?= hour b)
       (lex (minute a ?= minute b)
          (lex (second a ?= second b) (microsecond a ?= microsecond b)))).

(** The three-way comparison of two values of the same type; [None]
    for a pair Python refuses to order. *)
Definition py_compare (a b : pyvalue) : option comparison :=
  match a, b with
  | VInt x, VInt y => Some (x ?= y)
  | VStr x, VStr y => Some (String.compare x y)
  | VDate x, VDate y => Some (date_compare x y)
  | VDateTime x, VDateTime y => Some (datetime_compare x y)
  | _, _ => None
  end.

(** [operator.eq], [operator.ge], [operator.le]. *)
Inductive operator := op_eq | op_ge | op_le.

#[global] Instance operator_eq_dec : EqDecision operator.
Proof. solve_decision. Defined.

(** [op(a, b)]: [==] never raises and is [False] across types; [>=]
    and [<=] raise [TypeError] on a pair that has no order. *)
Definition apply_op (o : operator) (a b : pyvalue) : result bool :=
  match o with
  | op_eq => Ok (bool_decide (a = b))
  | op_ge =>
      match py_compare a b with
      | Some c => Ok (match c with Lt => false | _ => true end)
      | None => Raise TypeError
      end
  | op_le =>
      match py_compare a b with
      | Some c => Ok (match c with Gt => false | _ => true end)
      | None => Raise TypeError
      end
  end.

(** ** helpers.py *)

Module Helpers.

(** The decimal digit of the units of [n]. *)
Definition digit (n : Z) : ascii := ascii_of_nat (48 + Z.to_nat (n mod 10)).

(** [n] written with [w] decimal digits, zero padded. *)
Fixpoint zero_padded (w : nat) (n : Z) : string :=
  match w with
  | O => EmptyString
  | S w' => (zero_padded w' (n / 10) +:+ String (digit n) EmptyString)%string
  end.

(** [datetime_to_str(dt)]: [strftime(dt, "%Y-%m-%d")], the year
    written with four digits; that is the text for the years 1000 to
    9999, while the padding of a smaller year depends on the C library
    of the platform. *)
Definition datetime_to_str (dt : datetime) : string :=
  let d := dt_date dt in
  (zero_padded 4 (year d) +:+ "-" +:+ zero_padded 2 (month d) +:+ "-"
     +:+ zero_padded 2 (day d))%string.

End Helpers.

(** ** models.py *)

Module Models.

(** A row of the CSV data; [extract.load_cdc_data] coerces every
    counter to an integer and [cd_to_datetime] the date to a datetime. *)
Record CDCTrackingObject := {
  date : datetime;
  state : string;
  death : Z;
  deathIncrease : Z;
  hospitalizedCumulative : Z;
  hospitalizedCurrently : Z;
  inIcuCurrently : Z;
  negative : Z;
  onVentilatorCumulative : Z;
  onVentilatorCurrently : Z;
  positive : Z;
  totalTestResultsIncrease : Z;
  totalTestsAntibody : Z;
  totalTestsAntigen : Z;
  totalTestsViral : Z
}.

#[global] Instance CDCTrackingObject_eq_dec : EqDecision CDCTrackingObject.
Proof. solve_decision. Defined.

(** The property [date_str]: [if self.date:] is the truthiness of a
    datetime. *)
Definition date_str (self : CDCTrackingObject) : string :=
  if truthy (VDateTime (date self))
  then Helpers.datetime_to_str (date self)
  else "an unknown time"%string.

End Models.

(** ** filters.py *)

Module Filters.
Import Models.

(** The class of a filter object: the base class and its six
    subclasses. *)
Inductive filter_class :=
| AttributeFilter
| DateFilter
| StateFilter
| HospitalizedFilter
| IcuFilter
| OnVentFilter
| DeathFilter.

#[global] Instance filter_class_eq_dec : EqDecision filter_class.
Proof. solve_decision. Defined.

(** A filter object: its class and the two attributes set by
    [__init__]. *)
Record filter_object := Filter {
  cls : filter_class;
  op : operator;
  value : pyvalue
}.

#[global] Instance filter_object_eq_dec : EqDecision filter_object.
Proof. solve_decision. Defined.

(** [cls.get(covid_data)], dispatched on the class. *)
Definition get (c : filter_class) (covid_data : CDCTrackingObject)
  : result pyvalue :=
  match c with
  | AttributeFilter => Raise UnsupportedCriterionError
  | DateFilter => Ok (VDate (dt_date (date covid_data)))
  | StateFilter => Ok (VStr (state covid_data))
  | HospitalizedFilter => Ok (VInt (hospitalizedCurrently covid_data))
  | IcuFilter => Ok (VInt (inIcuCurrently covid_data))
  | OnVentFilter => Ok (VInt (onVentilatorCurrently covid_data))
  | DeathFilter => Ok (VInt (death covid_data))
  end.

(** [self(covid_data)]: [self.op(self.get(covid_data), self.value)]. *)
Definition call (self : filter_object) (covid_data : CDCTrackingObject)
  : result bool :=
  a ← get (cls self) covid_data;
  apply_op (op self) a (value self).

(** [create_filters]: one [if] and one [append] per keyword argument. *)
Definition create_filters
  (date start_date end_date state
   hospitalized_min hospitalized_max icu_min icu_max
   onvent_min onvent_max death_min death_max : pyvalue) : list filter_object :=
  let filters := [] in
  let filters :=
    if truthy date then filters ++ [Filter DateFilter op_eq date]
    else filters in
  let filters :=
    if truthy start_date then filters ++ [Filter DateFilter op_ge start_date]
    else filters in
  let filters :=
    if truthy end_date then filters ++ [Filter DateFilter op_le end_date]
    else filters in
  let filters :=
    if truthy state then filters ++ [Filter StateFilter op_eq state]
    else filters in
  let filters :=
    if truthy hospitalized_min
    then filters ++ [Filter HospitalizedFilter op_ge hospitalized_min]
    else filters in
  let filters :=
    if truthy hospitalized_max
    then filters ++ [Filter HospitalizedFilter op_le hospitalized_max]
    else filters in
  let filters :=
    if truthy icu_min then filters ++ [Filter IcuFilter op_ge icu_min]
    else filters in
  let filters :=
    if truthy icu_max then filters ++ [Filter IcuFilter op_le icu_max]
    else filters in
  let filters :=
    if truthy onvent_min then filters ++ [Filter OnVentFilter op_ge onvent_min]
    else filters in
  let filters :=
    if truthy onvent_max then filters ++ [Filter OnVentFilter op_le onvent_max]
    else filters in
  let filters :=
    if truthy death_min then filters ++ [Filter DeathFilter op_ge death_min]
    else filters in
  let filters :=
    if truthy death_max then filters ++ [Filter DeathFilter op_le death_max]
    else filters in
  filters.

(** [enumerate(iterator)], counting from [i]. *)
Fixpoint enumerate_from {A} (i : Z) (iterator : list A) : list (Z * A) :=
  match iterator with
  | [] => []
  | x :: rest => (i, x) :: enumerate_from (i + 1) rest
  end.

Definition enumerate {A} (iterator : list A) : list (Z * A) :=
  enumerate_from 0 iterator.

(** [limit(iterator, n)]; [n] is [None] or an integer. *)
Definition limit {A} (iterator : list A) (n : option Z) : list A :=
  match n with
  | Some 0 => iterator
  | None => iterator
  | Some n' =>
      map snd (List.filter (fun ix => fst ix <? n') (enumerate iterator))
  end.

End Filters.

(** ** database.py *)

Module Database.
Import Models Filters.

(** [m[k]] on a [defaultdict(list)]: a miss stores a fresh empty
    list under [k] and returns it. *)
Definition dd_getitem (k : string)
  (m : gmap string (list CDCTrackingObject))
  : list CDCTrackingObject * gmap string (list CDCTrackingObject) :=
  match m !! k with
  | Some l => (l, m)
  | None => ([], <[k := []]> m)
  end.

(** [m[k].append(d)]: the list stored under [k] grows in place. *)
Definition dd_append (k : string) (d : CDCTrackingObject)
  (m : gmap string (list CDCTrackingObject))
  : gmap string (list CDCTrackingObject) :=
  let '(l, m') := dd_getitem k m in
  <[k := l ++ [d]]> m'.

(** The attributes of a [CDCTrackingDatabase]. *)
Record CDCTrackingDatabase := {
  cdcObjs : list CDCTrackingObject;
  data_by_date : gmap string (list CDCTrackingObject);
  data_by_state : gmap string (list CDCTrackingObject)
}.

(** One turn of the loop of [__init__]. *)
Definition index_one (self : CDCTrackingDatabase) (d : CDCTrackingObject)
  : CDCTrackingDatabase :=
  {| cdcObjs := cdcObjs self;
     data_by_date :=
       dd_append (Helpers.datetime_to_str (date d)) d (data_by_date self);
     data_by_state := dd_append (state d) d (data_by_state self) |}.

(** [CDCTrackingDatabase(cdcObjs)]. *)
Definition init (cdcObjs : list CDCTrackingObject) : CDCTrackingDatabase :=
  fold_left index_one cdcObjs
    {| cdcObjs := cdcObjs; data_by_date := ∅; data_by_state := ∅ |}.

(** [self.get_tracking_data_by_date(date)]: the bucket and the
    database afterwards. *)
Definition get_tracking_data_by_date (self : CDCTrackingDatabase)
  (date : string) : list CDCTrackingObject * CDCTrackingDatabase :=
  let '(l, m) := dd_getitem date (data_by_date self) in
  (l, {| cdcObjs := cdcObjs self;
         data_by_date := m;
         data_by_state := data_by_state self |}).

(** [self.get_tracking_data_by_state(state)]. *)
Definition get_tracking_data_by_state (self : CDCTrackingDatabase)
  (state : string) : list CDCTrackingObject * CDCTrackingDatabase :=
  let '(l, m) := dd_getitem state (data_by_state self) in
  (l, {| cdcObjs := cdcObjs self;
         data_by_date := data_by_date self;
         data_by_state := m |}).

(** How a drained generator ended. *)
Inductive ending := StopIteration | Raised (e : exn).

#[global] Instance ending_eq_dec : EqDecision ending.
Proof. solve_decision. Defined.

(** [all(map(lambda f: f(obj), filters))]: stops at the first filter
    that is false, raises if one raises before that. *)
Fixpoint all_filters (filters : list filter_object) (obj : CDCTrackingObject)
  : result bool :=
  match filters with
  | [] => Ok true
  | f :: rest =>
      b ← call f obj;
      if b : bool then all_filters rest obj else Ok false
  end.

(** The first loop of [query]: the objects yielded, in order, until
    the sequence is exhausted or a filter raises. *)
Fixpoint scan (filters : list filter_object) (objs : list CDCTrackingObject)
  : list CDCTrackingObject * ending :=
  match objs with
  | [] => ([], StopIteration)
  | obj :: rest =>
      match all_filters filters obj with
      | Raise e => ([], Raised e)
      | Ok true => let '(ys, e) := scan filters rest in (obj :: ys, e)
      | Ok false => scan filters rest
      end
  end.

(** The second loop of [query]: every object is yielded. *)
Fixpoint yield_all (objs : list CDCTrackingObject)
  : list CDCTrackingObject * ending :=
  match objs with
  | [] => ([], StopIteration)
  | obj :: rest => let '(ys, e) := yield_all rest in (obj :: ys, e)
  end.

(** [list(self.query(filters))]: what the generator yields and how it
    ends, and the database afterwards.  [if filters:] is the
    truthiness of the collection, that is, it is not empty. *)
Definition query (self : CDCTrackingDatabase) (filters : list filter_object)
  : (list CDCTrackingObject * ending) * CDCTrackingDatabase :=
  match filters with
  | _ :: _ => (scan filters (cdcObjs self), self)
  | [] => (yield_all (cdcObjs self), self)
  end.

(** A call a client can make on a database. *)
Inductive method :=
| GetByDate (date : string)
| GetByState (state : string)
| Query (filters : list filter_object).

(** The database after one call. *)
Definition step (self : CDCTrackingDatabase) (c : method)
  : CDCTrackingDatabase :=
  match c with
  | GetByDate k => snd (get_tracking_data_by_date self k)
  | GetByState k => snd (get_tracking_data_by_state self k)
  | Query fs => snd (query self fs)
  end.

(** The database after a sequence of calls. *)
Definition run (self : CDCTrackingDatabase) (cs : list method)
  : CDCTrackingDatabase :=
  fold_left step cs self.

End Database.

Import Models Filters Database.

(** ** Sample data *)

Definition feb_1 : pydate := Date 2021 2 1.
Definition feb_2 : pydate := Date 2021 2 2.

Definition mk_obj (d : pydate) (st : string) (dth hosp icu vent : Z)
  : CDCTrackingObject :=
  {| date := DateTime d 0 0 0 0; state := st; death := dth;
     deathIncrease := 0; hospitalizedCumulative := 0;
     hospitalizedCurrently := hosp; inIcuCurrently := icu; negative := 0;
     onVentilatorCumulative := 0; onVentilatorCurrently := vent;
     positive := 0; totalTestResultsIncrease := 0; totalTestsAntibody := 0;
     totalTestsAntigen := 0; totalTestsViral := 0 |}.

Definition ca_1 := mk_obj feb_1 "CA" 40908 14850 3800 0.
Definition wi_1 := mk_obj feb_1 "WI" 6500 600 150 50.
Definition ca_2 := mk_obj feb_2 "CA" 41330 14500 3700 0.
Definition sample : list CDCTrackingObject := [ca_1; wi_1; ca_2].

(** An object of 1 February 2021 stamped 13:45:07. *)
Definition ca_afternoon : CDCTrackingObject :=
  {| date := DateTime feb_1 13 45 7 0; state := "CA"; death := 40908;
     deathIncrease := 0; hospitalizedCumulative := 0;
     hospitalizedCurrently := 14850; inIcuCurrently := 3800; negative := 0;
     onVentilatorCumulative := 0; onVentilatorCurrently := 0;
     positive := 0; totalTestResultsIncrease := 0; totalTestsAntibody := 0;
     totalTestsAntigen := 0; totalTestsViral := 0 |}.


(** ** Definitions used by the statements *)

(** What a drained query yielded. *)
Definition produced
  (q : (list CDCTrackingObject * ending) * CDCTrackingDatabase)
  : list CDCTrackingObject := fst (fst q).

(** How a drained query ended. *)
Definition ended
  (q : (list CDCTrackingObject * ending) * CDCTrackingDatabase)
  : ending := snd (fst q).

(** Every filter of the collection evaluates to true on [r]. *)
Definition all_true (fs : list filter_object) (r : CDCTrackingObject) : Prop :=
  Forall (fun f => call f r = Ok true) fs.

#[global] Instance all_true_dec fs r : Decision (all_true fs r).
Proof. unfold all_true. apply _. Defined.

(** The two index keys of an object. *)
Definition date_key (d : CDCTrackingObject) : string :=
  Helpers.datetime_to_str (date d).
Definition state_key (d : CDCTrackingObject) : string := state d.

(** The objects of [objs] whose key is [k], in the order of [objs]. *)
Definition keyed (key : CDCTrackingObject -> string) (k : string)
  (objs : list CDCTrackingObject) : list CDCTrackingObject :=
  filter (fun d => key d = k) objs.

(** The value a lookup returns: the bucket, or the empty list. *)
Definition bucket (m : gmap string (list CDCTrackingObject)) (k : string)
  : list CDCTrackingObject := default [] (m !! k).

(** The loop of [__init__] on one index, whose key is [key]. *)
Definition build (key : CDCTrackingObject -> string)
  (objs : list CDCTrackingObject)
  (m : gmap string (list CDCTrackingObject))
  : gmap string (list CDCTrackingObject) :=
  fold_left (fun m d => dd_append (key d) d m) objs m.

(** The field table of the specification of [create_filters]: the
    keyword arguments in their fixed order, each with the class and
    the operator of its filter. *)
Definition criteria_table
  (date start_date end_date state
   hospitalized_min hospitalized_max icu_min icu_max
   onvent_min onvent_max death_min death_max : pyvalue)
  : list (pyvalue * (filter_class * operator)) :=
  [ (date, (DateFilter, op_eq));
    (start_date, (DateFilter, op_ge));
    (end_date, (DateFilter, op_le));
    (state, (StateFilter, op_eq));
    (hospitalized_min, (HospitalizedFilter, op_ge));
    (hospitalized_max, (HospitalizedFilter, op_le));
    (icu_min, (IcuFilter, op_ge));
    (icu_max, (IcuFilter, op_le));
    (onvent_min, (OnVentFilter, op_ge));
    (onvent_max, (OnVentFilter, op_le));
    (death_min, (DeathFilter, op_ge));
    (death_max, (DeathFilter, op_le)) ].

(** A present field gives exactly one filter, an absent one none. *)
Definition field_filters (e : pyvalue * (filter_class * operator))
  : list filter_object :=
  if truthy (fst e) then [Filter (fst (snd e)) (snd (snd e)) (fst e)]
  else [].

(** [create_filters] as the specification words it. *)
Definition create_filters_spec
  (date start_date end_date state
   hospitalized_min hospitalized_max icu_min icu_max
   onvent_min onvent_max death_min death_max : pyvalue) : list filter_object :=
  concat (map field_filters
    (criteria_table date start_date end_date state
       hospitalized_min hospitalized_max icu_min icu_max
       onvent_min onvent_max death_min death_max)).

(** ** main.py *)

Module Main.

(** The [Namespace] the [query] sub-parser returns: an option that is
    not given is [None], one that is given has the type argparse
    converts it to ([date_fromisoformat], [str], [int]). *)
Record Namespace := {
  date : option pydate;
  start_date : option pydate;
  end_date : option pydate;
  state : option string;
  hospitalized_min : option Z;
  hospitalized_max : option Z;
  icu_min : option Z;
  icu_max : option Z;
  onvent_min : option Z;
  onvent_max : option Z;
  death_min : option Z;
  death_max : option Z;
  limit : option Z
}.

Definition of_date (o : option pydate) : pyvalue :=
  match o with Some d => VDate d | None => VNone end.
Definition of_str (o : option string) : pyvalue :=
  match o with Some s => VStr s | None => VNone end.
Definition of_int (o : option Z) : pyvalue :=
  match o with Some n => VInt n | None => VNone end.

(** [a or b] for an optional integer [a]. *)
Definition or_int (a : option Z) (b : Z) : Z :=
  match a with
  | Some n => if n =? 0 then b else n
  | None => b
  end.

(** [limit(iterator, n)] when [iterator] is a generator: with [n]
    equal to [0] or [None] the generator itself is returned, otherwise
    the comprehension drains it, so that a raise inside the generator
    leaves [limit] before anything is returned. *)
Definition limit_stream {A} (iterator : list A * ending) (n : option Z)
  : list A * ending :=
  match snd iterator with
  | StopIteration => (Filters.limit (fst iterator) n, StopIteration)
  | Raised e =>
      match n with
      | Some 0 => iterator
      | None => iterator
      | Some _ => ([], Raised e)
      end
  end.

(** The filters [query] builds from the command line. *)
Definition filters_of (args : Namespace) : list filter_object :=
  create_filters
    (of_date (date args)) (of_date (start_date args))
    (of_date (end_date args)) (of_str (state args))
    (of_int (hospitalized_min args)) (of_int (hospitalized_max args))
    (of_int (icu_min args)) (of_int (icu_max args))
    (of_int (onvent_min args)) (of_int (onvent_max args))
    (of_int (death_min args)) (of_int (death_max args)).

(** [query(database, args)]: the objects handed to [print], in order,
    how the loop ended, and the database afterwards. *)
Definition query (database : CDCTrackingDatabase) (args : Namespace)
  : (list CDCTrackingObject * ending) * CDCTrackingDatabase :=
  let filters := filters_of args in
  let results := Database.query database filters in
  (limit_stream (fst results) (Some (or_int (limit args) 50)), snd results).

End Main.

(** ** extract.py *)

Module Extract.

(** A row as [csv.DictReader] yields it for a file whose header has
    the fifteen columns: the date and the state cells, and the counter
    cells, each a string or [None] when the row is too short. *)
Record row := {
  date : string;
  state : string;
  death : option string;
  deathIncrease : option string;
  hospitalizedCumulative : option string;
  hospitalizedCurrently : option string;
  inIcuCurrently : option string;
  negative : option string;
  onVentilatorCumulative : option string;
  onVentilatorCurrently : option string;
  positive : option string;
  totalTestResultsIncrease : option string;
  totalTestsAntibody : option string;
  totalTestsAntigen : option string;
  totalTestsViral : option string
}.

(** The counter cells in the order the loop coerces them. *)
Definition counters (line : row) : list (option string) :=
  [ death line; deathIncrease line; hospitalizedCumulative line;
    hospitalizedCurrently line; inIcuCurrently line; negative line;
    onVentilatorCumulative line; onVentilatorCurrently line; positive line;
    totalTestResultsIncrease line; totalTestsAntibody line;
    totalTestsAntigen line; totalTestsViral line ].

Section Loader.

(** Python's [int] on a string and [helpers.cd_to_datetime]; [None]
    stands for the [ValueError] each raises on a text it rejects. *)
Variable int : string -> option Z.
Variable cd_to_datetime : string -> option datetime.

(** [int(cell) if cell else 0]; [None] when [int] raises. *)
Definition coerce (cell : option string) : option Z :=
  match cell with
  | None => Some 0
  | Some s => if String.eqb s "" then Some 0 else int s
  end.

(** One turn of the loop.  The outer [None] is a [ValueError] of a
    coercion, which nothing catches; the inner [None] is a row whose
    constructor raised, which is printed and left out. *)
Definition load_line (line : row) : option (option CDCTrackingObject) :=
  death' ← coerce (death line);
  deathIncrease' ← coerce (deathIncrease line);
  hospitalizedCumulative' ← coerce (hospitalizedCumulative line);
  hospitalizedCurrently' ← coerce (hospitalizedCurrently line);
  inIcuCurrently' ← coerce (inIcuCurrently line);
  negative' ← coerce (negative line);
  onVentilatorCumulative' ← coerce (onVentilatorCumulative line);
  onVentilatorCurrently' ← coerce (onVentilatorCurrently line);
  positive' ← coerce (positive line);
  totalTestResultsIncrease' ← coerce (totalTestResultsIncrease line);
  totalTestsAntibody' ← coerce (totalTestsAntibody line);
  totalTestsAntigen' ← coerce (totalTestsAntigen line);
  totalTestsViral' ← coerce (totalTestsViral line);
  Some
    (match cd_to_datetime (date line) with
     | None => None
     | Some dt =>
         Some {| Models.date := dt;
                 Models.state := state line;
                 Models.death := death';
                 Models.deathIncrease := deathIncrease';
                 Models.hospitalizedCumulative := hospitalizedCumulative';
                 Models.hospitalizedCurrently := hospitalizedCurrently';
                 Models.inIcuCurrently := inIcuCurrently';
                 Models.negative := negative';
                 Models.onVentilatorCumulative := onVentilatorCumulative';
                 Models.onVentilatorCurrently := onVentilatorCurrently';
                 Models.positive := positive';
                 Models.totalTestResultsIncrease := totalTestResultsIncrease';
                 Models.totalTestsAntibody := totalTestsAntibody';
                 Models.totalTestsAntigen := totalTestsAntigen';
                 Models.totalTestsViral := totalTestsViral' |}
     end).

(** [load_cdc_data] on the rows of the reader; [None] when a coercion
    raised. *)
Fixpoint load_cdc_data (reader : list row)
  : option (list CDCTrackingObject) :=
  match reader with
  | [] => Some []
  | line :: rest =>
      o ← load_line line;
      cdcTrackingObjs ← load_cdc_data rest;
      Some (match o with
            | Some cdcData => cdcData :: cdcTrackingObjs
            | None => cdcTrackingObjs
            end)
  end.

End Loader.

End Extract.

(** ** Further definitions used by the statements *)

(** A date with a year of four digits and a month and a day in their
    ranges, as [strptime] with [%Y-%m-%d] reads one from a text such as
    those of the data file. *)
Definition valid_date (d : pydate) : Prop :=
  1000 <= year d <= 9999 /\ 1 <= month d <= 12 /\ 1 <= day d <= 31.

(** The calendar order: [a] is on or before [b]. *)
Definition date_leb (a b : pydate) : bool :=
  (year a <? year b)
  || ((year a =? year b)
      && ((month a <? month b)
          || ((month a =? month b) && (day a <=? day b)))).

(** What each option of the command line asks of an object. *)
Definition on_date (o : option pydate) (r : CDCTrackingObject) : bool :=
  match o with
  | None => true
  | Some d => bool_decide (dt_date (date r) = d)
  end.

Definition from_date (o : option pydate) (r : CDCTrackingObject) : bool :=
  match o with
  | None => true
  | Some d => date_leb d (dt_date (date r))
  end.

Definition until_date (o : option pydate) (r : CDCTrackingObject) : bool :=
  match o with
  | None => true
  | Some d => date_leb (dt_date (date r)) d
  end.

Definition in_state (o : option string) (r : CDCTrackingObject) : bool :=
  match o with
  | None => true
  | Some s => String.eqb s "" || bool_decide (state r = s)
  end.

Definition at_least (o : option Z) (x : Z) : bool :=
  match o with
  | None => true
  | Some n => (n =? 0) || (n <=? x)
  end.

Definition at_most (o : option Z) (x : Z) : bool :=
  match o with
  | None => true
  | Some n => (n =? 0) || (x <=? n)
  end.

(** The object satisfies every option of the command line. *)
Definition matches (args : Main.Namespace) (r : CDCTrackingObject) : bool :=
  on_date (Main.date args) r
  && from_date (Main.start_date args) r
  && until_date (Main.end_date args) r
  && in_state (Main.state args) r
  && at_least (Main.hospitalized_min args) (hospitalizedCurrently r)
  && at_most (Main.hospitalized_max args) (hospitalizedCurrently r)
  && at_least (Main.icu_min args) (inIcuCurrently r)
  && at_most (Main.icu_max args) (inIcuCurrently r)
  && at_least (Main.onvent_min args) (onVentilatorCurrently r)
  && at_most (Main.onvent_max args) (onVentilatorCurrently r)
  && at_least (Main.death_min args) (death r)
  && at_most (Main.death_max args) (death r).

(** A field of the table asks nothing when absent and is its filter
    when present. *)
Definition field_holds (e : pyvalue * (filter_class * operator))
  (r : CDCTrackingObject) : Prop :=
  truthy (fst e) = true ->
  call (Filter (fst (snd e)) (snd (snd e)) (fst e)) r = Ok true.

(** Two bounds that no integer satisfies together: both are given,
    neither is [0], and the upper one is below the lower one. *)
Definition conflicting (lo hi : option Z) : bool :=
  match lo, hi with
  | Some a, Some b => negb (a =? 0) && negb (b =? 0) && (b <? a)
  | _, _ => false
  end.

(** An end date before the start date. *)
Definition conflicting_dates (s e : option pydate) : bool :=
  match s, e with
  | Some a, Some b => negb (date_leb a b)
  | _, _ => false
  end.

(** Some pair of bounds of the command line is conflicting. *)
Definition contradictory (args : Main.Namespace) : bool :=
  conflicting_dates (Main.start_date args) (Main.end_date args)
  || conflicting (Main.hospitalized_min args) (Main.hospitalized_max args)
  || conflicting (Main.icu_min args) (Main.icu_max args)
  || conflicting (Main.onvent_min args) (Main.onvent_max args)
  || conflicting (Main.death_min args) (Main.death_max args).

(** The counters of an object in the order of [Extract.counters]. *)
Definition object_counters (o : CDCTrackingObject) : list Z :=
  [ death o; deathIncrease o; hospitalizedCumulative o;
    hospitalizedCurrently o; inIcuCurrently o; negative o;
    onVentilatorCumulative o; onVentilatorCurrently o; positive o;
    totalTestResultsIncrease o; totalTestsAntibody o;
    totalTestsAntigen o; totalTestsViral o ].

(** A row has a counter cell that [int] rejects. *)
Definition bad_counter (int : string -> option Z) (line : Extract.row)
  : Prop :=
  Exists (fun cell => Extract.coerce int cell = None) (Extract.counters line).

(** A falsy argument replaced by [None]. *)
Definition or_none (v : pyvalue) : pyvalue :=
  if truthy v then v else VNone.

(** A command line with no option. *)
Definition no_args : Main.Namespace :=
  {| Main.date := None; Main.start_date := None; Main.end_date := None;
     Main.state := None;
     Main.hospitalized_min := None; Main.hospitalized_max := None;
     Main.icu_min := None; Main.icu_max := None;
     Main.onvent_min := None; Main.onvent_max := None;
     Main.death_min := None; Main.death_max := None;
     Main.limit := None |}.

(** A command line whose only option is the limit. *)
Definition only_limit (n : option Z) : Main.Namespace :=
  {| Main.date := None; Main.start_date := None; Main.end_date := None;
     Main.state := None;
     Main.hospitalized_min := None; Main.hospitalized_max := None;
     Main.icu_min := None; Main.icu_max := None;
     Main.onvent_min := None; Main.onvent_max := None;
     Main.death_min := None; Main.death_max := None;
     Main.limit := n |}.

(** A minimum above the maximum. *)
Definition min_above_max : Main.Namespace :=
  {| Main.date := None; Main.start_date := None; Main.end_date := None;
     Main.state := None;
     Main.hospitalized_min := Some 4000; Main.hospitalized_max := Some 100;
     Main.icu_min := None; Main.icu_max := None;
     Main.onvent_min := None; Main.onvent_max := None;
     Main.death_min := None; Main.death_max := None;
     Main.limit := None |}.

(** A toy [int] and [cd_to_datetime] for the examples: a few texts
    are accepted, every other one is rejected. *)
Definition toy_int (s : string) : option Z :=
  if String.eqb s "7" then Some 7
  else if String.eqb s "40908" then Some 40908
  else None.

Definition toy_date (s : string) : option datetime :=
  if String.eqb s "2021-02-01" then Some (DateTime feb_1 0 0 0 0)
  else if String.eqb s "2021-02-02" then Some (DateTime feb_2 0 0 0 0)
  else None.

Definition mk_row (d st : string) (dth : option string) : Extract.row :=
  {| Extract.date := d; Extract.state := st; Extract.death := dth;
     Extract.deathIncrease := Some ""%string;
     Extract.hospitalizedCumulative := None;
     Extract.hospitalizedCurrently := Some "7"%string;
     Extract.inIcuCurrently := None; Extract.negative := None;
     Extract.onVentilatorCumulative := None;
     Extract.onVentilatorCurrently := None; Extract.positive := None;
     Extract.totalTestResultsIncrease := None;
     Extract.totalTestsAntibody := None; Extract.totalTestsAntigen := None;
     Extract.totalTestsViral := None |}.

(** ** The indexes built by [__init__] *)

Section Index.
Variable key : CDCTrackingObject -> string.

Lemma dd_append_lookup k d (m : gmap string (list CDCTrackingObject)) k' :
  dd_append k d m !! k'
  = if decide (k = k') then Some (bucket m k ++ [d]) else m !! k'.
Proof.
  unfold dd_append, dd_getitem, bucket.
  destruct (m !! k) as [l|] eqn:E; cbn.
  - rewrite lookup_insert. by destruct (decide (k = k')).
  - rewrite lookup_insert. destruct (decide (k = k')); [done|].
    by rewrite lookup_insert_ne.
Qed.

Lemma bucket_dd_append k d (m : gmap string (list CDCTrackingObject)) k' :
  bucket (dd_append k d m) k'
  = if decide (k = k') then bucket m k ++ [d] else bucket m k'.
Proof.
  unfold bucket at 1. rewrite dd_append_lookup.
  by destruct (decide (k = k')).
Qed.

Lemma build_lookup objs : forall m k,
  build key objs m !! k
  = match keyed key k objs with
    | [] => m !! k
    | b => Some (bucket m k ++ b)
    end.
Proof.
  unfold build, keyed.
  induction objs as [|d objs IH]; intros m k; [done|].
  cbn [fold_left]. rewrite IH, filter_cons.
  rewrite dd_append_lookup, bucket_dd_append.
  destruct (decide (key d = k)) as [->|Hne]; cbn.
  - destruct (filter _ objs); cbn; [done|].
    by rewrite <- app_assoc.
  - done.
Qed.

Lemma build_empty_lookup objs k :
  build key objs ∅ !! k
  = match keyed key k objs with
    | [] => None
    | b => Some b
    end.
Proof.
  rewrite build_lookup, lookup_empty. unfold bucket.
  rewrite lookup_empty. by destruct (keyed key k objs).
Qed.

Lemma elem_of_keyed k objs r : r ∈ keyed key k objs <-> r ∈ objs /\ key r = k.
Proof. unfold keyed. rewrite list_elem_of_filter. tauto. Qed.

End Index.

Lemma init_fold objs db :
  cdcObjs (fold_left index_one objs db) = cdcObjs db
  /\ data_by_date (fold_left index_one objs db)
     = build date_key objs (data_by_date db)
  /\ data_by_state (fold_left index_one objs db)
     = build state_key objs (data_by_state db).
Proof.
  revert db. induction objs as [|d objs IH]; intros db; [done|].
  cbn [fold_left]. destruct (IH (index_one db d)) as (-> & -> & ->).
  done.
Qed.

Lemma init_cdcObjs R : cdcObjs (init R) = R.
Proof. unfold init. by rewrite (proj1 (init_fold _ _)). Qed.

Lemma init_by_date R k :
  data_by_date (init R) !! k
  = match keyed date_key k R with [] => None | b => Some b end.
Proof.
  unfold init. rewrite (proj1 (proj2 (init_fold _ _))).
  apply build_empty_lookup.
Qed.

Lemma init_by_state R k :
  data_by_state (init R) !! k
  = match keyed state_key k R with [] => None | b => Some b end.
Proof.
  unfold init. rewrite (proj2 (proj2 (init_fold _ _))).
  apply build_empty_lookup.
Qed.

(** ** Lookups on a [defaultdict] *)

Lemma dd_getitem_fst k (m : gmap string (list CDCTrackingObject)) :
  fst (dd_getitem k m) = bucket m k.
Proof. unfold dd_getitem, bucket. by destruct (m !! k). Qed.

Lemma dd_getitem_snd k (m : gmap string (list CDCTrackingObject)) k' :
  snd (dd_getitem k m) !! k' = m !! k'
  \/ (m !! k' = None /\ snd (dd_getitem k m) !! k' = Some [] /\ k = k').
Proof.
  unfold dd_getitem. destruct (m !! k) as [l|] eqn:E; cbn; [by left|].
  destruct (decide (k = k')) as [<-|Hne].
  - right. by rewrite lookup_insert_eq.
  - left. by rewrite lookup_insert_ne.
Qed.

Lemma dd_getitem_bucket k (m : gmap string (list CDCTrackingObject)) k' :
  bucket (snd (dd_getitem k m)) k' = bucket m k'.
Proof.
  unfold bucket.
  destruct (dd_getitem_snd k m k') as [->|(-> & -> & _)]; done.
Qed.

Lemma get_by_date_fst db k :
  fst (get_tracking_data_by_date db k) = bucket (data_by_date db) k.
Proof.
  unfold get_tracking_data_by_date.
  rewrite <- dd_getitem_fst. by destruct (dd_getitem _ _).
Qed.

Lemma get_by_state_fst db k :
  fst (get_tracking_data_by_state db k) = bucket (data_by_state db) k.
Proof.
  unfold get_tracking_data_by_state.
  rewrite <- dd_getitem_fst. by destruct (dd_getitem _ _).
Qed.

Lemma get_by_date_snd db k :
  snd (get_tracking_data_by_date db k)
  = {| cdcObjs := cdcObjs db;
       data_by_date := snd (dd_getitem k (data_by_date db));
       data_by_state := data_by_state db |}.
Proof. unfold get_tracking_data_by_date. by destruct (dd_getitem _ _). Qed.

Lemma get_by_state_snd db k :
  snd (get_tracking_data_by_state db k)
  = {| cdcObjs := cdcObjs db;
       data_by_date := data_by_date db;
       data_by_state := snd (dd_getitem k (data_by_state db)) |}.
Proof. unfold get_tracking_data_by_state. by destruct (dd_getitem _ _). Qed.

Lemma query_snd db fs : snd (query db fs) = db.
Proof. by destruct fs. Qed.

(** ** The database along a sequence of calls *)

Lemma step_cdcObjs db c : cdcObjs (step db c) = cdcObjs db.
Proof.
  destruct c; cbn [step];
    rewrite ?get_by_date_snd, ?get_by_state_snd, ?query_snd; done.
Qed.

Lemma step_by_date db c k :
  data_by_date (step db c) !! k = data_by_date db !! k
  \/ (data_by_date db !! k = None
      /\ data_by_date (step db c) !! k = Some [] /\ c = GetByDate k).
Proof.
  destruct c as [k0|k0|fs]; cbn [step];
    rewrite ?get_by_date_snd, ?get_by_state_snd, ?query_snd; cbn;
    [|by left..].
  destruct (dd_getitem_snd k0 (data_by_date db) k) as [H|(H1 & H2 & ->)];
    [by left|by right].
Qed.

Lemma step_by_state db c k :
  data_by_state (step db c) !! k = data_by_state db !! k
  \/ (data_by_state db !! k = None
      /\ data_by_state (step db c) !! k = Some [] /\ c = GetByState k).
Proof.
  destruct c as [k0|k0|fs]; cbn [step];
    rewrite ?get_by_date_snd, ?get_by_state_snd, ?query_snd; cbn;
    [by left| |by left].
  destruct (dd_getitem_snd k0 (data_by_state db) k) as [H|(H1 & H2 & ->)];
    [by left|by right].
Qed.

(** One call followed by further calls: either both leave the bucket
    of the key alone, or exactly one of them is the lookup that
    created it. *)
Ltac chain_steps later first :=
  let E := fresh "E" in
  let F := fresh "F" in
  destruct later as [E|(? & ? & ?)];
  destruct first as [F|(? & ? & ?)];
  [ left; congruence
  | right; repeat split; [done|congruence|]; subst; apply elem_of_cons; by left
  | right; repeat split; [congruence|done|]; apply elem_of_cons; by right
  | congruence ].

Lemma run_cdcObjs cs : forall db, cdcObjs (run db cs) = cdcObjs db.
Proof.
  unfold run. induction cs as [|c cs IH]; intros db; [done|].
  cbn [fold_left]. by rewrite IH, step_cdcObjs.
Qed.

Lemma run_by_date cs k : forall db,
  data_by_date (run db cs) !! k = data_by_date db !! k
  \/ (data_by_date db !! k = None
      /\ data_by_date (run db cs) !! k = Some [] /\ GetByDate k ∈ cs).
Proof.
  unfold run. induction cs as [|c cs IH]; intros db; [by left|].
  cbn [fold_left].
  chain_steps (IH (step db c)) (step_by_date db c k).
Qed.

Lemma run_by_state cs k : forall db,
  data_by_state (run db cs) !! k = data_by_state db !! k
  \/ (data_by_state db !! k = None
      /\ data_by_state (run db cs) !! k = Some [] /\ GetByState k ∈ cs).
Proof.
  unfold run. induction cs as [|c cs IH]; intros db; [by left|].
  cbn [fold_left].
  chain_steps (IH (step db c)) (step_by_state db c k).
Qed.

Lemma run_bucket_date cs db k :
  bucket (data_by_date (run db cs)) k = bucket (data_by_date db) k.
Proof.
  unfold bucket. destruct (run_by_date cs k db) as [->|(-> & -> & _)]; done.
Qed.

Lemma run_bucket_state cs db k :
  bucket (data_by_state (run db cs)) k = bucket (data_by_state db) k.
Proof.
  unfold bucket. destruct (run_by_state cs k db) as [->|(-> & -> & _)]; done.
Qed.

Lemma dd_getitem_stored k (m : gmap string (list CDCTrackingObject)) :
  snd (dd_getitem k m) !! k = Some (bucket m k).
Proof.
  unfold dd_getitem, bucket. destruct (m !! k) as [l|] eqn:E; cbn; [done|].
  by rewrite lookup_insert_eq.
Qed.

Lemma run_keeps_bucket_date cs k db :
  is_Some (data_by_date db !! k) -> is_Some (data_by_date (run db cs) !! k).
Proof.
  intros [l Hl].
  destruct (run_by_date cs k db) as [->|(E & _)]; [by exists l|congruence].
Qed.

Lemma run_keeps_bucket_state cs k db :
  is_Some (data_by_state db !! k) -> is_Some (data_by_state (run db cs) !! k).
Proof.
  intros [l Hl].
  destruct (run_by_state cs k db) as [->|(E & _)]; [by exists l|congruence].
Qed.

Lemma run_stores_date cs k : forall db,
  GetByDate k ∈ cs -> is_Some (data_by_date (run db cs) !! k).
Proof.
  induction cs as [|c cs IH]; intros db Hin; [by apply elem_of_nil in Hin|].
  change (run db (c :: cs)) with (run (step db c) cs).
  apply elem_of_cons in Hin as [<-|Hin]; [|by apply IH].
  apply run_keeps_bucket_date. cbn [step].
  rewrite get_by_date_snd; cbn [data_by_date].
  by rewrite dd_getitem_stored.
Qed.

Lemma run_stores_state cs k : forall db,
  GetByState k ∈ cs -> is_Some (data_by_state (run db cs) !! k).
Proof.
  induction cs as [|c cs IH]; intros db Hin; [by apply elem_of_nil in Hin|].
  change (run db (c :: cs)) with (run (step db c) cs).
  apply elem_of_cons in Hin as [<-|Hin]; [|by apply IH].
  apply run_keeps_bucket_state. cbn [step].
  rewrite get_by_state_snd; cbn [data_by_state].
  by rewrite dd_getitem_stored.
Qed.

Lemma keyed_nil key k R :
  (forall r, r ∈ R -> key r <> k) -> keyed key k R = [].
Proof.
  intros H. destruct (keyed key k R) as [|x l] eqn:E; [done|].
  assert (Hx : x ∈ keyed key k R) by (rewrite E; apply elem_of_cons; by left).
  apply elem_of_keyed in Hx as [Hx1 Hx2]. by destruct (H x Hx1).
Qed.

(** ** Filters on an object *)

(** Whether a filter raises depends on its class, operator and
    reference value only, never on the object. *)
Lemma call_raise_any f r e r' : call f r = Raise e -> call f r' = Raise e.
Proof.
  destruct f as [c o v]. unfold call; cbn.
  destruct c, o, v; cbn; congruence.
Qed.

Lemma all_filters_true fs r : all_filters fs r = Ok true <-> all_true fs r.
Proof.
  unfold all_true. induction fs as [|f fs IH]; cbn.
  - split; [constructor|done].
  - rewrite Forall_cons, <- IH.
    destruct (call f r) as [[]|e]; cbn; split; try done; try tauto;
      by intros [? _].
Qed.

Lemma all_filters_raise fs r e r' :
  all_filters fs r = Raise e -> all_filters fs r' <> Ok true.
Proof.
  induction fs as [|f fs IH]; cbn; [done|].
  destruct (call f r) as [[]|e0] eqn:E; cbn.
  - intros H. specialize (IH H).
    destruct (call f r') as [[]|e1]; cbn; done.
  - done.
  - intros _. by rewrite (call_raise_any _ _ _ r' E).
Qed.

Lemma yield_all_eq objs : yield_all objs = (objs, StopIteration).
Proof.
  induction objs as [|obj objs IH]; [done|]. cbn. by rewrite IH.
Qed.

Lemma filter_none_true fs (objs : list CDCTrackingObject) :
  (forall r, all_filters fs r <> Ok true) ->
  filter (all_true fs) objs = [].
Proof.
  intros H. induction objs as [|obj objs IH]; [done|].
  rewrite filter_cons_False; [done|].
  rewrite <- all_filters_true. apply H.
Qed.

Lemma scan_produced fs objs :
  fst (scan fs objs) = filter (all_true fs) objs.
Proof.
  induction objs as [|obj objs IH]; [done|]. cbn [scan].
  destruct (all_filters fs obj) as [[]|e] eqn:E.
  - rewrite filter_cons_True by by apply all_filters_true.
    destruct (scan fs objs); cbn in *. by rewrite IH.
  - rewrite filter_cons_False; [done|].
    rewrite <- all_filters_true. congruence.
  - cbn [fst]. symmetry. apply filter_none_true.
    intros r. by apply (all_filters_raise fs obj e).
Qed.

Lemma scan_raised fs objs e :
  snd (scan fs objs) = Raised e -> exists o, all_filters fs o = Raise e.
Proof.
  induction objs as [|obj objs IH]; [done|]. cbn [scan].
  destruct (all_filters fs obj) as [[]|e'] eqn:E.
  - destruct (scan fs objs); cbn in *. done.
  - done.
  - cbn. intros [= ->]. by exists obj.
Qed.

Lemma scan_ended fs objs :
  snd (scan fs objs) = StopIteration
  \/ exists e, scan fs objs = ([], Raised e).
Proof.
  induction objs as [|obj objs IH]; [by left|]. cbn [scan].
  destruct (all_filters fs obj) as [[]|e] eqn:E.
  - destruct IH as [IH|[e IH]].
    + left. by destruct (scan fs objs).
    + destruct (scan_raised fs objs e) as [o Ho]; [by rewrite IH|].
      by destruct (all_filters_raise fs o e obj Ho).
  - done.
  - right. by exists e.
Qed.

Lemma query_ended db fs :
  ended (query db fs) = StopIteration
  \/ exists e, ended (query db fs) = Raised e /\ produced (query db fs) = [].
Proof.
  unfold ended, produced. destruct fs as [|f fs]; cbn [query fst].
  - left. by rewrite yield_all_eq.
  - destruct (scan_ended (f :: fs) (cdcObjs db)) as [H|[e H]]; [by left|].
    right. exists e. by rewrite H.
Qed.

Lemma query_produced db fs :
  produced (query db fs) = filter (all_true fs) (cdcObjs db).
Proof.
  unfold produced. destruct fs as [|f fs]; cbn [query fst].
  - rewrite yield_all_eq. cbn [fst].
    induction (cdcObjs db) as [|x l IH]; [done|].
    rewrite filter_cons_True by constructor. by rewrite <- IH.
  - apply scan_produced.
Qed.

(** ** [create_filters] and [limit] *)

Lemma append_if {A} (b : bool) (l : list A) x :
  (if b then l ++ [x] else l) = l ++ (if b then [x] else []).
Proof. destruct b; [done|by rewrite app_nil_r]. Qed.

Lemma create_filters_table
  (date start_date end_date state
   hospitalized_min hospitalized_max icu_min icu_max
   onvent_min onvent_max death_min death_max : pyvalue) :
  create_filters date start_date end_date state
    hospitalized_min hospitalized_max icu_min icu_max
    onvent_min onvent_max death_min death_max
  = create_filters_spec date start_date end_date state
      hospitalized_min hospitalized_max icu_min icu_max
      onvent_min onvent_max death_min death_max.
Proof.
  unfold create_filters, create_filters_spec, criteria_table, field_filters.
  cbn [map concat fst snd]. cbv zeta.
  rewrite !append_if, <- !app_assoc, app_nil_r. reflexivity.
Qed.

Lemma field_filters_concrete e f :
  f ∈ field_filters e ->
  truthy (fst e) = true /\ f = Filter (fst (snd e)) (snd (snd e)) (fst e).
Proof.
  unfold field_filters. destruct (truthy (fst e)).
  - intros ->%list_elem_of_singleton. done.
  - intros H. by apply elem_of_nil in H.
Qed.

Lemma limit_take {A} (l : list A) n : forall i,
  map snd (List.filter (fun ix => fst ix <? n) (enumerate_from i l))
  = take (Z.to_nat (n - i)) l.
Proof.
  induction l as [|x l IH]; intros i; cbn.
  - by destruct (Z.to_nat (n - i)).
  - destruct (Z.ltb_spec i n) as [Hlt|Hge]; cbn; rewrite IH.
    + replace (Z.to_nat (n - i)) with (S (Z.to_nat (n - (i + 1)))) by lia.
      done.
    + replace (Z.to_nat (n - (i + 1))) with O by lia.
      replace (Z.to_nat (n - i)) with O by lia. done.
Qed.

Lemma limit_nonzero {A} (l : list A) n :
  n <> 0 -> limit l (Some n) = take (Z.to_nat n) l.
Proof.
  intros Hn. unfold limit, enumerate. destruct n as [|p|p]; [done|..];
    rewrite limit_take; by rewrite Z.sub_0_r.
Qed.

Lemma length_field_filters t :
  length (concat (map field_filters t))
  = length (filter (fun e => truthy (fst e) = true) t).
Proof.
  induction t as [|e t IH]; [done|].
  cbn [map concat]. rewrite length_app, IH, filter_cons.
  unfold field_filters. destruct (truthy (fst e)); cbn.
  - by destruct (decide (true = true)).
  - by destruct (decide (false = true)).
Qed.

Lemma create_filters_spec_elem
  (date start_date end_date state
   hospitalized_min hospitalized_max icu_min icu_max
   onvent_min onvent_max death_min death_max : pyvalue) f :
  f ∈ create_filters_spec date start_date end_date state
        hospitalized_min hospitalized_max icu_min icu_max
        onvent_min onvent_max death_min death_max ->
  exists e,
    e ∈ criteria_table date start_date end_date state
          hospitalized_min hospitalized_max icu_min icu_max
          onvent_min onvent_max death_min death_max
    /\ truthy (fst e) = true
    /\ f = Filter (fst (snd e)) (snd (snd e)) (fst e).
Proof.
  unfold create_filters_spec.
  generalize (criteria_table date start_date end_date state
                hospitalized_min hospitalized_max icu_min icu_max
                onvent_min onvent_max death_min death_max) as t.
  induction t as [|a t IH]; cbn [map concat].
  - intros H. by apply elem_of_nil in H.
  - intros [H|H]%elem_of_app.
    + exists a. split; [apply elem_of_cons; by left|].
      by apply field_filters_concrete.
    + destruct (IH H) as (e & He & Hf). exists e.
      split; [apply elem_of_cons; by right|done].
Qed.

(** ** Date filters on a date as reference value *)

(** Case analysis on every integer comparison of the goal. *)
Ltac order_cases :=
  repeat match goal with
    | |- context [?x ?= ?y] => destruct (Z.compare_spec x y)
    | |- context [?x <? ?y] => destruct (Z.ltb_spec x y)
    | |- context [?x <=? ?y] => destruct (Z.leb_spec x y)
    | |- context [?x =? ?y] => destruct (Z.eqb_spec x y)
    end;
  cbn; try reflexivity; try lia.

Lemma date_le_compare a b :
  match date_compare a b with Gt => false | _ => true end = date_leb a b.
Proof. unfold date_compare, date_leb, lex. order_cases. Qed.

Lemma date_ge_compare a b :
  match date_compare a b with Lt => false | _ => true end = date_leb b a.
Proof. unfold date_compare, date_leb, lex. order_cases. Qed.

Lemma call_date_eq d r :
  call (Filter DateFilter op_eq (VDate d)) r = Ok (on_date (Some d) r).
Proof.
  unfold call; cbn. f_equal. apply bool_decide_ext.
  split; congruence.
Qed.

Lemma call_date_ge d r :
  call (Filter DateFilter op_ge (VDate d)) r = Ok (from_date (Some d) r).
Proof. unfold call; cbn. by rewrite date_ge_compare. Qed.

Lemma call_date_le d r :
  call (Filter DateFilter op_le (VDate d)) r = Ok (until_date (Some d) r).
Proof. unfold call; cbn. by rewrite date_le_compare. Qed.

Lemma date_leb_spec a b :
  date_leb a b = true
  <-> year a < year b
      \/ (year a = year b
          /\ (month a < month b \/ (month a = month b /\ day a <= day b))).
Proof.
  unfold date_leb.
  rewrite !orb_true_iff, !andb_true_iff, !orb_true_iff, !andb_true_iff.
  rewrite !Z.ltb_lt, !Z.eqb_eq, Z.leb_le. tauto.
Qed.

(** ** The claims *)





(** C3, as stated, fails: one lookup by a date that has no bucket, and
    one by a state that has none, each leave a new key behind, so that
    neither the mappings nor their key sets are what construction
    built. *)
Lemma index_frame_counterexample :
  data_by_date (run (init sample) [GetByDate "1999-12-31"])
    <> data_by_date (init sample)
  /\ dom (data_by_date (run (init sample) [GetByDate "1999-12-31"]))
       <> dom (data_by_date (init sample))
  /\ data_by_state (run (init sample) [GetByState "ZZ"])
       <> data_by_state (init sample)
  /\ dom (data_by_state (run (init sample) [GetByState "ZZ"]))
       <> dom (data_by_state (init sample)).
Proof.
  assert (Hd : data_by_date (run (init sample) [GetByDate "1999-12-31"])
               !! "1999-12-31"%string = Some [])
    by (vm_compute; reflexivity).
  assert (Hd0 : data_by_date (init sample) !! "1999-12-31"%string = None)
    by (vm_compute; reflexivity).
  assert (Hs : data_by_state (run (init sample) [GetByState "ZZ"])
               !! "ZZ"%string = Some [])
    by (vm_compute; reflexivity).
  assert (Hs0 : data_by_state (init sample) !! "ZZ"%string = None)
    by (vm_compute; reflexivity).
  repeat split; intros E.
  - rewrite E in Hd. congruence.
  - apply not_elem_of_dom in Hd0. apply Hd0. rewrite <- E.
    apply elem_of_dom. by rewrite Hd.
  - rewrite E in Hs. congruence.
  - apply not_elem_of_dom in Hs0. apply Hs0. rewrite <- E.
    apply elem_of_dom. by rewrite Hs.
Qed.

(** C3, amended: the base sequence never changes and [query] changes
    nothing; after any sequence of calls every key has the bucket it
    had after construction, so every lookup returns what it returned
    then, except that a key looked up while it had no bucket now has
    an empty one: a lookup stores under its key the sequence it
    returns, so after the calls every key that was looked up has a
    bucket; when every key looked up has a bucket from the start,
    both mappings are exactly what construction built. *)
Theorem index_frame (R : list CDCTrackingObject) (cs : list method)
  (k : string) :
  cdcObjs (run (init R) cs) = R
  /\ (forall db fs, snd (query db fs) = db)
  /\ bucket (data_by_date (run (init R) cs)) k
     = bucket (data_by_date (init R)) k
  /\ bucket (data_by_state (run (init R) cs)) k
     = bucket (data_by_state (init R)) k
  /\ (data_by_date (run (init R) cs) !! k = data_by_date (init R) !! k
      \/ (data_by_date (init R) !! k = None
          /\ data_by_date (run (init R) cs) !! k = Some []
          /\ GetByDate k ∈ cs))
  /\ (data_by_state (run (init R) cs) !! k = data_by_state (init R) !! k
      \/ (data_by_state (init R) !! k = None
          /\ data_by_state (run (init R) cs) !! k = Some []
          /\ GetByState k ∈ cs))
  /\ ((forall k', GetByDate k' ∈ cs -> is_Some (data_by_date (init R) !! k'))
      -> data_by_date (run (init R) cs) = data_by_date (init R))
  /\ ((forall k', GetByState k' ∈ cs -> is_Some (data_by_state (init R) !! k'))
      -> data_by_state (run (init R) cs) = data_by_state (init R))
  /\ (GetByDate k ∈ cs ->
      data_by_date (run (init R) cs) !! k
      = Some (bucket (data_by_date (init R)) k))
  /\ (GetByState k ∈ cs ->
      data_by_state (run (init R) cs) !! k
      = Some (bucket (data_by_state (init R)) k))
  /\ (forall db,
        data_by_date (snd (get_tracking_data_by_date db k)) !! k
        = Some (fst (get_tracking_data_by_date db k)))
  /\ (forall db,
        data_by_state (snd (get_tracking_data_by_state db k)) !! k
        = Some (fst (get_tracking_data_by_state db k))).
Proof.
  repeat split.
  - by rewrite run_cdcObjs, init_cdcObjs.
  - intros db fs. apply query_snd.
  - apply run_bucket_date.
  - apply run_bucket_state.
  - apply run_by_date.
  - apply run_by_state.
  - intros H. apply map_eq. intros k'.
    destruct (run_by_date cs k' (init R)) as [E|(E1 & _ & E3)]; [done|].
    destruct (H k' E3) as [l Hl]. congruence.
  - intros H. apply map_eq. intros k'.
    destruct (run_by_state cs k' (init R)) as [E|(E1 & _ & E3)]; [done|].
    destruct (H k' E3) as [l Hl]. congruence.
  - intros Hin. destruct (run_stores_date cs k (init R) Hin) as [l Hl].
    rewrite Hl. f_equal.
    rewrite <- (run_bucket_date cs (init R) k). unfold bucket. by rewrite Hl.
  - intros Hin. destruct (run_stores_state cs k (init R) Hin) as [l Hl].
    rewrite Hl. f_equal.
    rewrite <- (run_bucket_state cs (init R) k). unfold bucket. by rewrite Hl.
  - intros db. rewrite get_by_date_snd, get_by_date_fst; cbn [data_by_date].
    apply dd_getitem_stored.
  - intros db. rewrite get_by_state_snd, get_by_state_fst; cbn [data_by_state].
    apply dd_getitem_stored.
Qed.

Lemma index_frame_witness :
  bucket (data_by_date
            (run (init sample) [GetByDate "1999-12-31"; Query []]))
    "2021-02-01"
  = bucket (data_by_date (init sample)) "2021-02-01"
  /\ (GetByDate "1999-12-31" ∈ [GetByDate "1999-12-31"; Query []] ->
      data_by_date (run (init sample) [GetByDate "1999-12-31"; Query []])
        !! "1999-12-31"%string
      = Some (bucket (data_by_date (init sample)) "1999-12-31")).
Proof.
  split.
  - apply (index_frame sample [GetByDate "1999-12-31"%string; Query []]
             "2021-02-01"%string).
  - apply (index_frame sample [GetByDate "1999-12-31"%string; Query []]
             "1999-12-31"%string).
Defined.

(** C4: [create_filters] returns, in the fixed order of its keyword
    arguments, exactly one filter for each argument that is truthy,
    of the class and operator the field table gives and with the
    argument as reference value, and nothing for an argument that is
    falsy ([None], [0], the empty string); with [hospitalized_min=0]
    alone it returns no filter at all. *)
Theorem create_filters_mapping
  (date start_date end_date state
   hospitalized_min hospitalized_max icu_min icu_max
   onvent_min onvent_max death_min death_max : pyvalue) :
  create_filters date start_date end_date state
    hospitalized_min hospitalized_max icu_min icu_max
    onvent_min onvent_max death_min death_max
  = create_filters_spec date start_date end_date state
      hospitalized_min hospitalized_max icu_min icu_max
      onvent_min onvent_max death_min death_max
  /\ length (create_filters date start_date end_date state
               hospitalized_min hospitalized_max icu_min icu_max
               onvent_min onvent_max death_min death_max)
     = length (filter (fun e => truthy (fst e) = true)
                 (criteria_table date start_date end_date state
                    hospitalized_min hospitalized_max icu_min icu_max
                    onvent_min onvent_max death_min death_max))
  /\ Forall (fun f => truthy (value f) = true)
       (create_filters date start_date end_date state
          hospitalized_min hospitalized_max icu_min icu_max
          onvent_min onvent_max death_min death_max)
  /\ create_filters VNone VNone VNone VNone (VInt 0) VNone VNone VNone
       VNone VNone VNone VNone = []
  /\ create_filters (VDate feb_1) VNone VNone (VStr "CA") (VInt 0)
       (VInt 100) VNone VNone VNone VNone VNone VNone
     = [Filter DateFilter op_eq (VDate feb_1);
        Filter StateFilter op_eq (VStr "CA");
        Filter HospitalizedFilter op_le (VInt 100)].
Proof.
  split; [apply create_filters_table|].
  split; [rewrite create_filters_table; apply length_field_filters|].
  split; [|split; reflexivity].
  apply Forall_forall. intros f Hf. rewrite create_filters_table in Hf.
  apply create_filters_spec_elem in Hf as (e & _ & He & ->). done.
Qed.

Lemma create_filters_mapping_witness :
  length (create_filters VNone (VDate feb_1) VNone (VStr "") (VInt 0)
            (VInt 100) VNone VNone VNone VNone VNone VNone)
  = 2%nat.
Proof.
  exact (proj1 (proj2
    (create_filters_mapping VNone (VDate feb_1) VNone (VStr "") (VInt 0)
       (VInt 100) VNone VNone VNone VNone VNone VNone))).
Defined.

(** C5: for a positive [n], [limit] returns the first
    [min n (length)] elements in their order, with no error when [n]
    exceeds the length; for [n] equal to [0] or [None] it returns the
    sequence as it is. *)
Theorem limit_positive {A} (l : list A) (n : Z) (Hn : 0 < n) :
  limit l (Some n) = take (Nat.min (Z.to_nat n) (length l)) l
  /\ length (limit l (Some n)) = Nat.min (Z.to_nat n) (length l)
  /\ (Z.of_nat (length l) <= n -> limit l (Some n) = l)
  /\ limit l (Some 0) = l
  /\ limit l None = l.
Proof.
  rewrite limit_nonzero by lia.
  split; [|split; [|split; [|done]]].
  - destruct (Nat.min_spec (Z.to_nat n) (length l)) as [[_ ->]|[Hle ->]];
      [done|].
    by rewrite !take_ge by lia.
  - apply length_take.
  - intros Hle. apply take_ge. lia.
Qed.

Lemma limit_positive_witness :
  0 < 3
  /\ limit [10; 11; 12; 13; 14; 15; 16; 17; 18; 19] (Some 3) = [10; 11; 12]
  /\ limit [10; 11] (Some 3) = [10; 11].
Proof.
  split; [lia|]. split.
  - exact (proj1 (limit_positive [10; 11; 12; 13; 14; 15; 16; 17; 18; 19] 3
                    eq_refl)).
  - exact (proj1 (limit_positive [10; 11] 3 eq_refl)).
Defined.

(** C10: for a negative [n], [limit] returns the empty sequence. *)
Theorem limit_negative {A} (l : list A) (n : Z) (Hn : n < 0) :
  limit l (Some n) = [].
Proof.
  rewrite limit_nonzero by lia.
  replace (Z.to_nat n) with O by lia. done.
Qed.

Lemma limit_negative_witness : -2 < 0 /\ limit [10; 11; 12] (Some (-2)) = [].
Proof.
  split; [lia|]. exact (limit_negative [10; 11; 12] (-2) eq_refl).
Defined.



(** C7: on a database built from [R], after any calls, a lookup by a
    date key that no object of [R] has returns the empty sequence, and
    so does a lookup by a state key that no object has; both lookups
    are total functions of the key. *)
Theorem lookup_miss_empty (R : list CDCTrackingObject) (cs : list method)
  (dk sk : string)
  (Hd : forall r, r ∈ R -> Helpers.datetime_to_str (date r) <> dk)
  (Hs : forall r, r ∈ R -> state r <> sk) :
  fst (get_tracking_data_by_date (run (init R) cs) dk) = []
  /\ fst (get_tracking_data_by_state (run (init R) cs) sk) = [].
Proof.
  rewrite get_by_date_fst, get_by_state_fst.
  rewrite run_bucket_date, run_bucket_state. unfold bucket.
  rewrite init_by_date, init_by_state.
  rewrite (keyed_nil date_key dk R Hd), (keyed_nil state_key sk R Hs).
  done.
Qed.

Lemma lookup_miss_empty_witness :
  (forall r, r ∈ sample -> Helpers.datetime_to_str (date r) <> "2021-03-01"%string)
  /\ (forall r, r ∈ sample -> state r <> "TX"%string)
  /\ fst (get_tracking_data_by_date
            (run (init sample) [GetByDate "2021-03-01"; Query []])
            "2021-03-01") = []
  /\ fst (get_tracking_data_by_state
            (run (init sample) [GetByDate "2021-03-01"; Query []])
            "TX") = [].
Proof.
  assert (Hd : forall r, r ∈ sample ->
                 Helpers.datetime_to_str (date r) <> "2021-03-01"%string).
  { apply Forall_forall. repeat constructor; vm_compute; discriminate. }
  assert (Hs : forall r, r ∈ sample -> state r <> "TX"%string).
  { apply Forall_forall. repeat constructor; vm_compute; discriminate. }
  split; [exact Hd|]. split; [exact Hs|].
  exact (lookup_miss_empty sample
           [GetByDate "2021-03-01"%string; Query []]
           "2021-03-01"%string "TX"%string Hd Hs).
Defined.

(** C8: the date filter compares calendar days only: its [get]
    returns the date of the object without the time of day, and the
    operator is applied to that day and the reference date.  So an
    object stamped at any time of day [D] satisfies date-equals with a
    reference date exactly when that date is [D], on-or-after exactly
    when the reference date is on or before [D], on-or-before exactly
    when it is on or after [D]; and two objects of the same day get
    the same answer from every date filter. *)
Theorem date_filter_day_granularity (r : CDCTrackingObject) (D : pydate)
  (HD : dt_date (date r) = D) :
  get DateFilter r = Ok (VDate D)
  /\ call (Filter DateFilter op_eq (VDate D)) r = Ok true
  /\ (forall o v r', dt_date (date r') = D ->
      call (Filter DateFilter o v) r' = call (Filter DateFilter o v) r)
  /\ (forall D',
        call (Filter DateFilter op_eq (VDate D')) r = Ok (bool_decide (D = D')))
  /\ (forall D',
        call (Filter DateFilter op_eq (VDate D')) r = Ok true <-> D' = D)
  /\ (forall D',
        call (Filter DateFilter op_ge (VDate D')) r = Ok (date_leb D' D))
  /\ (forall D',
        call (Filter DateFilter op_le (VDate D')) r = Ok (date_leb D D'))
  /\ (forall D',
        date_leb D' D = true
        <-> year D' < year D
            \/ (year D' = year D
                /\ (month D' < month D
                    \/ (month D' = month D /\ day D' <= day D)))).
Proof.
  subst D. split; [done|]. split; [|split; [|split; [|split]]].
  - unfold call; cbn. by rewrite bool_decide_eq_true_2.
  - intros o v r' E. unfold call; cbn. by rewrite E.
  - intros D'. by rewrite call_date_eq.
  - intros D'. rewrite call_date_eq. cbn [on_date]. split.
    + intros [= E]. by apply bool_decide_eq_true_1 in E.
    + intros ->. by rewrite bool_decide_eq_true_2.
  - split; [|split].
    + intros D'. by rewrite call_date_ge.
    + intros D'. by rewrite call_date_le.
    + intros D'. apply date_leb_spec.
Qed.

Lemma date_filter_day_granularity_witness :
  dt_date (date ca_afternoon) = feb_1
  /\ call (Filter DateFilter op_eq (VDate feb_1)) ca_afternoon = Ok true
  /\ call (Filter DateFilter op_eq (VDate feb_2)) ca_afternoon = Ok false
  /\ call (Filter DateFilter op_ge (VDate feb_2)) ca_afternoon = Ok false
  /\ call (Filter DateFilter op_le (VDate feb_2)) ca_afternoon = Ok true.
Proof.
  split; [reflexivity|].
  pose (W := date_filter_day_granularity ca_afternoon feb_1 eq_refl).
  split; [exact (proj1 (proj2 W))|].
  split; [exact (proj1 (proj2 (proj2 (proj2 W))) feb_2)|].
  split.
  - exact (proj1 (proj2 (proj2 (proj2 (proj2 (proj2 W))))) feb_2).
  - exact (proj1 (proj2 (proj2 (proj2 (proj2 (proj2 (proj2 W)))))) feb_2).
Defined.

(** Without the stripping the comparison would be between a datetime
    and a date, which are never equal and have no order. *)
Example datetime_against_date :
  apply_op op_eq (VDateTime (date ca_afternoon)) (VDate feb_1) = Ok false
  /\ apply_op op_ge (VDateTime (date ca_afternoon)) (VDate feb_1)
     = Raise TypeError.
Proof. split; reflexivity. Qed.

(** C9: a filter of the base class raises [UnsupportedCriterionError]
    on every object, whatever its operator and reference value; and
    no filter returned by [create_filters] is of the base class, so
    calling one never raises that error. *)
Theorem unsupported_criterion_unreachable
  (date start_date end_date state
   hospitalized_min hospitalized_max icu_min icu_max
   onvent_min onvent_max death_min death_max : pyvalue)
  (f : filter_object)
  (Hf : f ∈ create_filters date start_date end_date state
              hospitalized_min hospitalized_max icu_min icu_max
              onvent_min onvent_max death_min death_max) :
  (forall o v r,
     call (Filter AttributeFilter o v) r = Raise UnsupportedCriterionError)
  /\ cls f <> AttributeFilter
  /\ (forall r, call f r <> Raise UnsupportedCriterionError).
Proof.
  split; [done|].
  rewrite create_filters_table in Hf.
  apply create_filters_spec_elem in Hf as (e & He & _ & ->).
  unfold criteria_table in He.
  assert (Hc : fst (snd e) <> AttributeFilter).
  { repeat (apply elem_of_cons in He as [->|He]; [done|]).
    by apply elem_of_nil in He. }
  split; [done|]. intros r. unfold call; cbn [cls op value].
  destruct e as [v [c o]]; cbn [fst snd] in *.
  destruct c; [done|..]; destruct o, v; cbn; done.
Qed.

Lemma unsupported_criterion_unreachable_witness :
  Filter HospitalizedFilter op_ge (VInt 4000)
    ∈ create_filters VNone VNone VNone VNone (VInt 4000) (VInt 100)
        VNone VNone VNone VNone VNone VNone
  /\ forall r,
       call (Filter HospitalizedFilter op_ge (VInt 4000)) r
       <> Raise UnsupportedCriterionError.
Proof.
  assert (H : Filter HospitalizedFilter op_ge (VInt 4000)
                ∈ create_filters VNone VNone VNone VNone (VInt 4000)
                    (VInt 100) VNone VNone VNone VNone VNone VNone).
  { apply elem_of_cons. left. reflexivity. }
  split; [exact H|].
  exact (proj2 (proj2
    (unsupported_criterion_unreachable VNone VNone VNone VNone (VInt 4000)
       (VInt 100) VNone VNone VNone VNone VNone VNone _ H))).
Defined.

(** ** The scenarios of the test suite on the sample *)

Example datetime_to_str_feb_1 :
  Helpers.datetime_to_str (date ca_1) = "2021-02-01"%string.
Proof. reflexivity. Qed.

Example by_date_sample :
  data_by_date (init sample)
  = {[ "2021-02-01"%string := [ca_1; wi_1];
       "2021-02-02"%string := [ca_2] ]}.
Proof. vm_compute. reflexivity. Qed.

Example query_date_and_state :
  query (init sample)
    (create_filters (VDate feb_1) VNone VNone (VStr "CA") VNone VNone
       VNone VNone VNone VNone VNone VNone)
  = (([ca_1], StopIteration), init sample).
Proof. vm_compute. reflexivity. Qed.

Example query_conflicting_bounds :
  produced (query (init sample)
    (create_filters VNone VNone VNone VNone (VInt 4000) (VInt 100)
       VNone VNone VNone VNone VNone VNone)) = [].
Proof. vm_compute. reflexivity. Qed.

Example query_base_class_raises :
  fst (query (init sample) [Filter AttributeFilter op_eq (VInt 1)])
  = ([], Raised UnsupportedCriterionError).
Proof. vm_compute. reflexivity. Qed.

(** ** Filters on typed reference values, continued *)

Lemma call_state_eq s r :
  call (Filter StateFilter op_eq (VStr s)) r = Ok (bool_decide (state r = s)).
Proof.
  unfold call; cbn. f_equal. apply bool_decide_ext. split; congruence.
Qed.

Lemma call_int_ge c n x r :
  get c r = Ok (VInt x) -> call (Filter c op_ge (VInt n)) r = Ok (n <=? x).
Proof. unfold call; cbn. intros ->. cbn. f_equal. order_cases. Qed.

Lemma call_int_le c n x r :
  get c r = Ok (VInt x) -> call (Filter c op_le (VInt n)) r = Ok (x <=? n).
Proof. unfold call; cbn. by intros ->. Qed.

Lemma all_true_fields t r :
  all_true (concat (map field_filters t)) r <-> Forall (fun e => field_holds e r) t.
Proof.
  unfold all_true. induction t as [|e t IH]; cbn [map concat].
  - split; constructor.
  - rewrite Forall_app, Forall_cons, IH. unfold field_filters, field_holds.
    destruct (truthy (fst e)).
    + rewrite Forall_singleton. tauto.
    + rewrite Forall_nil. split; [intros [_ ?]|intros [_ ?]]; done.
Qed.

Lemma field_on_date o r :
  field_holds (Main.of_date o, (DateFilter, op_eq)) r <-> on_date o r = true.
Proof.
  unfold field_holds. destruct o as [d|]; cbn [Main.of_date fst snd truthy].
  - rewrite call_date_eq. split; [intros H; by injection (H eq_refl)|congruence].
  - cbn. split; done.
Qed.

Lemma field_from_date o r :
  field_holds (Main.of_date o, (DateFilter, op_ge)) r <-> from_date o r = true.
Proof.
  unfold field_holds. destruct o as [d|]; cbn [Main.of_date fst snd truthy].
  - rewrite call_date_ge. split; [intros H; by injection (H eq_refl)|congruence].
  - cbn. split; done.
Qed.

Lemma field_until_date o r :
  field_holds (Main.of_date o, (DateFilter, op_le)) r <-> until_date o r = true.
Proof.
  unfold field_holds. destruct o as [d|]; cbn [Main.of_date fst snd truthy].
  - rewrite call_date_le. split; [intros H; by injection (H eq_refl)|congruence].
  - cbn. split; done.
Qed.

Lemma field_in_state o r :
  field_holds (Main.of_str o, (StateFilter, op_eq)) r <-> in_state o r = true.
Proof.
  unfold field_holds. destruct o as [s|]; cbn [Main.of_str fst snd truthy in_state].
  - rewrite call_state_eq. destruct (String.eqb s ""); cbn.
    + split; done.
    + split; [intros H; by injection (H eq_refl)|congruence].
  - split; done.
Qed.

Lemma field_at_least c o x r :
  get c r = Ok (VInt x) ->
  field_holds (Main.of_int o, (c, op_ge)) r <-> at_least o x = true.
Proof.
  intros Hg. unfold field_holds.
  destruct o as [n|]; cbn [Main.of_int fst snd truthy at_least].
  - rewrite (call_int_ge c n x r Hg). destruct (n =? 0); cbn.
    + split; done.
    + split; [intros H; by injection (H eq_refl)|congruence].
  - split; done.
Qed.

Lemma field_at_most c o x r :
  get c r = Ok (VInt x) ->
  field_holds (Main.of_int o, (c, op_le)) r <-> at_most o x = true.
Proof.
  intros Hg. unfold field_holds.
  destruct o as [n|]; cbn [Main.of_int fst snd truthy at_most].
  - rewrite (call_int_le c n x r Hg). destruct (n =? 0); cbn.
    + split; done.
    + split; [intros H; by injection (H eq_refl)|congruence].
  - split; done.
Qed.

Lemma all_true_matches args r :
  all_true (Main.filters_of args) r <-> matches args r = true.
Proof.
  unfold Main.filters_of. rewrite create_filters_table.
  unfold create_filters_spec, criteria_table. rewrite all_true_fields.
  rewrite !Forall_cons, Forall_nil.
  rewrite field_on_date, field_from_date, field_until_date, field_in_state.
  rewrite (field_at_least HospitalizedFilter _ _ r eq_refl).
  rewrite (field_at_most HospitalizedFilter _ _ r eq_refl).
  rewrite (field_at_least IcuFilter _ _ r eq_refl).
  rewrite (field_at_most IcuFilter _ _ r eq_refl).
  rewrite (field_at_least OnVentFilter _ _ r eq_refl).
  rewrite (field_at_most OnVentFilter _ _ r eq_refl).
  rewrite (field_at_least DeathFilter _ _ r eq_refl).
  rewrite (field_at_most DeathFilter _ _ r eq_refl).
  unfold matches. rewrite !andb_true_iff. tauto.
Qed.

Lemma date_leb_trans a b c :
  date_leb a b = true -> date_leb b c = true -> date_leb a c = true.
Proof. rewrite !date_leb_spec. lia. Qed.

Lemma conflicting_unsatisfiable lo hi x :
  at_least lo x = true -> at_most hi x = true -> conflicting lo hi = false.
Proof.
  destruct lo as [a|], hi as [b|]; cbn; try done.
  destruct (Z.eqb_spec a 0), (Z.eqb_spec b 0); cbn; try done.
  intros ?%Z.leb_le ?%Z.leb_le. apply Z.ltb_ge. lia.
Qed.

Lemma conflicting_dates_unsatisfiable s e r :
  from_date s r = true -> until_date e r = true ->
  conflicting_dates s e = false.
Proof.
  destruct s as [a|], e as [b|]; cbn; try done.
  intros H1 H2. by rewrite (date_leb_trans _ _ _ H1 H2).
Qed.

Lemma matches_not_contradictory args r :
  matches args r = true -> contradictory args = false.
Proof.
  unfold matches, contradictory. rewrite !andb_true_iff, !orb_false_iff.
  intros (((((((((((_ & Hs) & He) & _) & H1) & H2) & H3) & H4)
             & H5) & H6) & H7) & H8).
  repeat split;
    eauto using conflicting_unsatisfiable, conflicting_dates_unsatisfiable.
Qed.

(** ** Filters that cannot raise *)

Lemma all_filters_raise_elem fs r e :
  all_filters fs r = Raise e -> exists f, f ∈ fs /\ call f r = Raise e.
Proof.
  induction fs as [|f fs IH]; cbn; [done|].
  destruct (call f r) as [[]|e'] eqn:E; cbn.
  - intros H. destruct (IH H) as (g & Hg & Hc). exists g.
    split; [apply elem_of_cons; by right|done].
  - done.
  - intros [= ->]. exists f. split; [apply elem_of_cons; by left|done].
Qed.

Lemma scan_total fs objs :
  (forall f r e, f ∈ fs -> call f r <> Raise e) ->
  snd (scan fs objs) = StopIteration.
Proof.
  intros H. destruct (scan_ended fs objs) as [E|[e E]]; [done|].
  destruct (scan_raised fs objs e) as [o Ho]; [by rewrite E|].
  apply all_filters_raise_elem in Ho as (f & Hf & Hc).
  by destruct (H f o e Hf).
Qed.

Lemma typed_filters_total args f r e :
  f ∈ Main.filters_of args -> call f r <> Raise e.
Proof.
  unfold Main.filters_of. rewrite create_filters_table.
  intros (x & Hx & Ht & ->)%create_filters_spec_elem.
  unfold criteria_table in Hx.
  repeat (apply elem_of_cons in Hx as [->|Hx];
          [cbn [fst snd] in *;
           match goal with
           | |- context [Main.of_date ?o] => destruct o
           | |- context [Main.of_str ?o] => destruct o
           | |- context [Main.of_int ?o] => destruct o
           end; cbn in *; done|]).
  by apply elem_of_nil in Hx.
Qed.

Lemma query_total db fs :
  (forall f r e, f ∈ fs -> call f r <> Raise e) ->
  Database.query db fs
  = ((filter (all_true fs) (cdcObjs db), StopIteration), db).
Proof.
  intros H.
  pose proof (query_produced db fs) as Hp.
  pose proof (query_snd db fs) as Hs.
  assert (He : ended (Database.query db fs) = StopIteration).
  { unfold ended. destruct fs as [|f fs]; cbn [Database.query fst].
    - by rewrite yield_all_eq.
    - by apply scan_total. }
  unfold produced, ended in *.
  destruct (Database.query db fs) as [[ys e] db']; cbn in *. congruence.
Qed.

Lemma query_typed db args :
  Database.query db (Main.filters_of args)
  = ((filter (fun r => matches args r = true) (cdcObjs db), StopIteration),
     db).
Proof.
  rewrite query_total by (intros f r e; apply typed_filters_total).
  do 2 f_equal. apply list_filter_iff. intros r. apply all_true_matches.
Qed.

Lemma reachable_cdcObjs R cs : cdcObjs (run (init R) cs) = R.
Proof. by rewrite run_cdcObjs, init_cdcObjs. Qed.

Lemma field_filters_or_none v co :
  field_filters (or_none v, co) = field_filters (v, co).
Proof.
  unfold field_filters, or_none; cbn [fst snd].
  destruct (truthy v) eqn:E; [by rewrite E|done].
Qed.

(** ** Further properties of the filters and of [query] *)

(** X1: with the criteria typed as the command line types them, the
    drained query is exactly the objects of the base sequence that
    satisfy every given option, in load order; it ends normally and
    leaves the database as it was.  A bound equal to [0] and an empty
    state ask nothing. *)
Theorem typed_query_semantics (R : list CDCTrackingObject)
  (cs : list method) (args : Main.Namespace) :
  Database.query (run (init R) cs) (Main.filters_of args)
  = ((filter (fun r => matches args r = true) R, StopIteration),
     run (init R) cs).
Proof.
  rewrite query_typed. by rewrite reachable_cdcObjs.
Qed.

(** X2: when the end date is before the start date, or a maximum is
    below the minimum of the same counter (both given and not [0]), the
    query yields nothing and ends normally. *)
Theorem contradictory_bounds_empty (R : list CDCTrackingObject)
  (cs : list method) (args : Main.Namespace)
  (H : contradictory args = true) :
  Database.query (run (init R) cs) (Main.filters_of args)
  = (([], StopIteration), run (init R) cs).
Proof.
  rewrite query_typed. do 2 f_equal.
  induction (cdcObjs (run (init R) cs)) as [|r l IH]; [done|].
  rewrite filter_cons_False; [done|].
  intros Hm. apply matches_not_contradictory in Hm. congruence.
Qed.

Lemma contradictory_bounds_empty_witness :
  contradictory min_above_max = true
  /\ Database.query (run (init sample) []) (Main.filters_of min_above_max)
     = (([], StopIteration), run (init sample) []).
Proof.
  split; [reflexivity|].
  exact (contradictory_bounds_empty sample [] min_above_max eq_refl).
Defined.

(** X3: [create_filters] cannot tell a falsy argument from [None]:
    replacing every argument that is [0] or the empty string by [None]
    gives the same filters.  So a maximum of [0] bounds nothing: the
    query then yields the whole base sequence. *)
Theorem create_filters_falsy_as_none
  (date start_date end_date state
   hospitalized_min hospitalized_max icu_min icu_max
   onvent_min onvent_max death_min death_max : pyvalue) :
  create_filters date start_date end_date state
    hospitalized_min hospitalized_max icu_min icu_max
    onvent_min onvent_max death_min death_max
  = create_filters (or_none date) (or_none start_date) (or_none end_date)
      (or_none state) (or_none hospitalized_min) (or_none hospitalized_max)
      (or_none icu_min) (or_none icu_max) (or_none onvent_min)
      (or_none onvent_max) (or_none death_min) (or_none death_max)
  /\ (forall R cs,
        produced (Database.query (run (init R) cs)
          (create_filters VNone VNone VNone VNone VNone VNone VNone VNone
             VNone VNone VNone (VInt 0))) = R).
Proof.
  split.
  - rewrite !create_filters_table.
    unfold create_filters_spec, criteria_table. cbn [map].
    by rewrite !field_filters_or_none.
  - intros R cs. cbn [create_filters truthy Z.eqb negb].
    unfold produced. cbn [Database.query fst].
    by rewrite yield_all_eq, reachable_cdcObjs.
Qed.




(** X6: a datetime given as the [date] criterion matches no object
    and raises nothing, since the filter compares a date with it for
    equality; given as [start_date] it makes the query raise
    [TypeError] at the first object, before anything is yielded. *)
Theorem datetime_as_date_criterion (R : list CDCTrackingObject)
  (cs : list method) (dt : datetime) (r : CDCTrackingObject) :
  fst (Database.query (run (init R) cs)
         (create_filters (VDateTime dt) VNone VNone VNone VNone VNone VNone
            VNone VNone VNone VNone VNone))
  = ([], StopIteration)
  /\ fst (Database.query (run (init (r :: R)) cs)
            (create_filters VNone (VDateTime dt) VNone VNone VNone VNone
               VNone VNone VNone VNone VNone VNone))
     = ([], Raised TypeError).
Proof.
  split.
  - cbn [create_filters truthy app].
    rewrite query_total.
    + cbn [fst]. f_equal.
      induction (cdcObjs (run (init R) cs)) as [|x l IH]; [done|].
      rewrite filter_cons_False; [done|].
      intros Hx. by inversion Hx.
    + intros f x e ->%list_elem_of_singleton. done.
  - cbn [create_filters truthy app Database.query fst].
    by rewrite reachable_cdcObjs.
Qed.

(** ** Further properties of the indexes *)

Lemma init_bucket_date R k :
  bucket (data_by_date (init R)) k = keyed date_key k R.
Proof.
  unfold bucket. rewrite init_by_date. by destruct (keyed date_key k R).
Qed.

Lemma init_bucket_state R k :
  bucket (data_by_state (init R)) k = keyed state_key k R.
Proof.
  unfold bucket. rewrite init_by_state. by destruct (keyed state_key k R).
Qed.

Lemma filter_ext_elem {A} (P Q : A -> Prop)
  `{!forall x, Decision (P x)} `{!forall x, Decision (Q x)} (l : list A) :
  (forall x, x ∈ l -> P x <-> Q x) -> filter P l = filter Q l.
Proof.
  induction l as [|x l IH]; intros Hext; [done|].
  rewrite !filter_cons.
  assert (Hx : P x <-> Q x) by (apply Hext, elem_of_cons; by left).
  rewrite IH by (intros y Hy; apply Hext, elem_of_cons; by right).
  destruct (decide (P x)), (decide (Q x)); tauto.
Qed.

Lemma digit_inj a b : Helpers.digit a = Helpers.digit b -> a mod 10 = b mod 10.
Proof.
  unfold Helpers.digit. intros H.
  pose proof (Z.mod_pos_bound a 10 eq_refl).
  pose proof (Z.mod_pos_bound b 10 eq_refl).
  apply (f_equal nat_of_ascii) in H.
  rewrite !nat_ascii_embedding in H by lia. lia.
Qed.

Lemma four_digits a b :
  0 <= a < 10000 -> 0 <= b < 10000 ->
  a mod 10 = b mod 10 ->
  (a / 10) mod 10 = (b / 10) mod 10 ->
  (a / 10 / 10) mod 10 = (b / 10 / 10) mod 10 ->
  (a / 10 / 10 / 10) mod 10 = (b / 10 / 10 / 10) mod 10 ->
  a = b.
Proof.
  intros Ha Hb H0 H1 H2 H3.
  rewrite (Z.div_mod a 10), (Z.div_mod b 10), H0 by lia. f_equal. f_equal.
  rewrite (Z.div_mod (a / 10) 10), (Z.div_mod (b / 10) 10), H1 by lia.
  f_equal. f_equal.
  rewrite (Z.div_mod (a / 10 / 10) 10), (Z.div_mod (b / 10 / 10) 10), H2
    by lia.
  f_equal. f_equal.
  assert (0 <= a / 10 / 10 / 10 < 10).
  { rewrite !Z.div_div by lia. split; [apply Z.div_pos; lia|].
    apply Z.div_lt_upper_bound; lia. }
  assert (0 <= b / 10 / 10 / 10 < 10).
  { rewrite !Z.div_div by lia. split; [apply Z.div_pos; lia|].
    apply Z.div_lt_upper_bound; lia. }
  rewrite !Z.mod_small in H3 by lia. done.
Qed.

Lemma two_digits a b :
  0 <= a < 100 -> 0 <= b < 100 ->
  a mod 10 = b mod 10 -> (a / 10) mod 10 = (b / 10) mod 10 -> a = b.
Proof.
  intros Ha Hb H0 H1.
  rewrite (Z.div_mod a 10), (Z.div_mod b 10), H0 by lia. f_equal. f_equal.
  assert (0 <= a / 10 < 10).
  { split; [apply Z.div_pos; lia|]. apply Z.div_lt_upper_bound; lia. }
  assert (0 <= b / 10 < 10).
  { split; [apply Z.div_pos; lia|]. apply Z.div_lt_upper_bound; lia. }
  rewrite !Z.mod_small in H1 by lia. done.
Qed.

Lemma datetime_to_str_inj a b :
  valid_date (dt_date a) -> valid_date (dt_date b) ->
  Helpers.datetime_to_str a = Helpers.datetime_to_str b ->
  dt_date a = dt_date b.
Proof.
  destruct a as [[ya ma da] ? ? ? ?], b as [[yb mb db] ? ? ? ?].
  unfold valid_date, Helpers.datetime_to_str; cbn.
  intros (Hy & Hm & Hd) (Hy' & Hm' & Hd') H.
  injection H as H1 H2 H3 H4 H5 H6 H7 H8.
  apply digit_inj in H1, H2, H3, H4, H5, H6, H7, H8.
  f_equal.
  - apply four_digits; (done || lia).
  - apply two_digits; (done || lia).
  - apply two_digits; (done || lia).
Qed.

(** X7: two datetimes have the same key in [by_date] exactly when
    they fall on the same calendar day; the time of day plays no
    part. *)
Theorem datetime_to_str_same_day (a b : datetime)
  (Ha : valid_date (dt_date a)) (Hb : valid_date (dt_date b)) :
  Helpers.datetime_to_str a = Helpers.datetime_to_str b
  <-> dt_date a = dt_date b.
Proof.
  split; [by apply datetime_to_str_inj|].
  unfold Helpers.datetime_to_str. by intros ->.
Qed.

Lemma datetime_to_str_same_day_witness :
  valid_date (dt_date (date ca_1)) /\ valid_date (dt_date (date ca_afternoon))
  /\ (Helpers.datetime_to_str (date ca_1)
      = Helpers.datetime_to_str (date ca_afternoon)
      <-> dt_date (date ca_1) = dt_date (date ca_afternoon)).
Proof.
  assert (H : valid_date feb_1) by (unfold valid_date; cbn; lia).
  split; [exact H|]. split; [exact H|].
  exact (datetime_to_str_same_day (date ca_1) (date ca_afternoon) H H).
Defined.

(** X8: on a database built from objects with four-digit years, the lookup
    by the formatted date of a day returns what the query with that
    day as its [date] criterion yields: the objects of that day, in
    load order. *)
Theorem lookup_by_date_is_query (R : list CDCTrackingObject)
  (cs cs' : list method) (t : datetime)
  (Ht : valid_date (dt_date t))
  (HR : forall r, r ∈ R -> valid_date (dt_date (date r))) :
  fst (get_tracking_data_by_date (run (init R) cs)
         (Helpers.datetime_to_str t))
  = produced (Database.query (run (init R) cs')
      (create_filters (VDate (dt_date t)) VNone VNone VNone VNone VNone
         VNone VNone VNone VNone VNone VNone)).
Proof.
  rewrite get_by_date_fst, run_bucket_date, init_bucket_date.
  rewrite query_produced, reachable_cdcObjs.
  cbn [create_filters truthy app]. unfold keyed.
  apply filter_ext_elem. intros r Hr. unfold all_true, date_key.
  rewrite Forall_singleton, call_date_eq. cbn [on_date].
  rewrite (datetime_to_str_same_day _ _ (HR r Hr) Ht).
  split.
  - intros E. f_equal. by apply bool_decide_eq_true_2.
  - intros [= E]. by apply bool_decide_eq_true_1 in E.
Qed.

Lemma lookup_by_date_is_query_witness :
  valid_date (dt_date (date ca_afternoon))
  /\ (forall r, r ∈ sample -> valid_date (dt_date (date r)))
  /\ fst (get_tracking_data_by_date (run (init sample) [])
            (Helpers.datetime_to_str (date ca_afternoon)))
     = produced (Database.query (run (init sample) [GetByState "ZZ"])
         (create_filters (VDate (dt_date (date ca_afternoon))) VNone VNone
            VNone VNone VNone VNone VNone VNone VNone VNone VNone)).
Proof.
  assert (Ht : valid_date (dt_date (date ca_afternoon)))
    by (unfold valid_date; cbn; lia).
  assert (HR : forall r, r ∈ sample -> valid_date (dt_date (date r))).
  { apply Forall_forall. repeat constructor; cbn; lia. }
  split; [exact Ht|]. split; [exact HR|].
  exact (lookup_by_date_is_query sample [] [GetByState "ZZ"%string]
           (date ca_afternoon) Ht HR).
Defined.

(** X9: the lookup by a state code that is not the empty string
    returns what the query with that code as its [state] criterion
    yields: the objects of that state, in load order. *)
Theorem lookup_by_state_is_query (R : list CDCTrackingObject)
  (cs cs' : list method) (s : string) (Hs : s <> ""%string) :
  fst (get_tracking_data_by_state (run (init R) cs) s)
  = produced (Database.query (run (init R) cs')
      (create_filters VNone VNone VNone (VStr s) VNone VNone
         VNone VNone VNone VNone VNone VNone)).
Proof.
  rewrite get_by_state_fst, run_bucket_state, init_bucket_state.
  rewrite query_produced, reachable_cdcObjs.
  cbn [create_filters truthy].
  destruct (String.eqb_spec s ""); [done|]. cbn [negb app]. unfold keyed.
  apply list_filter_iff. intros r. unfold all_true, state_key.
  rewrite Forall_singleton, call_state_eq.
  split.
  - intros E. f_equal. by apply bool_decide_eq_true_2.
  - intros [= E]. by apply bool_decide_eq_true_1 in E.
Qed.

Lemma lookup_by_state_is_query_witness :
  "CA"%string <> ""%string
  /\ fst (get_tracking_data_by_state (run (init sample) []) "CA")
     = produced (Database.query (run (init sample) [])
         (create_filters VNone VNone VNone (VStr "CA") VNone VNone
            VNone VNone VNone VNone VNone VNone)).
Proof.
  assert (H : "CA"%string <> ""%string) by discriminate.
  split; [exact H|].
  exact (lookup_by_state_is_query sample [] [] "CA"%string H).
Defined.

(** X10: right after construction the keys of [by_date] are exactly
    the formatted dates that occur in the base sequence and the keys
    of [by_state] the state codes that occur in it, and no bucket is
    empty. *)
Theorem index_keys (R : list CDCTrackingObject) :
  dom (data_by_date (init R)) = list_to_set (date_key <$> R)
  /\ dom (data_by_state (init R)) = list_to_set (state_key <$> R)
  /\ (forall k l, data_by_date (init R) !! k = Some l -> l <> [])
  /\ (forall k l, data_by_state (init R) !! k = Some l -> l <> []).
Proof.
  assert (Hk : forall key k,
             is_Some (match keyed key k R with [] => None | b => Some b end)
             <-> k ∈ key <$> R).
  { intros key k. rewrite list_elem_of_fmap. split.
    - destruct (keyed key k R) as [|x l] eqn:E; [by intros [? ?]|].
      intros _. exists x.
      assert (Hx : x ∈ keyed key k R) by (rewrite E; apply elem_of_cons; by left).
      apply elem_of_keyed in Hx as [? ?]. done.
    - intros (x & -> & Hx).
      assert (Hx' : x ∈ keyed key (key x) R) by by apply elem_of_keyed.
      destruct (keyed key (key x) R); [by apply elem_of_nil in Hx'|done]. }
  split; [|split; [|split]].
  - apply set_eq. intros k.
    by rewrite elem_of_dom, init_by_date, elem_of_list_to_set, Hk.
  - apply set_eq. intros k.
    by rewrite elem_of_dom, init_by_state, elem_of_list_to_set, Hk.
  - intros k l. rewrite init_by_date.
    destruct (keyed date_key k R); congruence.
  - intros k l. rewrite init_by_state.
    destruct (keyed state_key k R); congruence.
Qed.

(** X11: a lookup is idempotent: the same lookup made again returns
    the same sequence and leaves the database as the first one left
    it; and a lookup with a key that has a bucket changes nothing. *)
Theorem lookup_idempotent (db : CDCTrackingDatabase) (k : string) :
  get_tracking_data_by_date (snd (get_tracking_data_by_date db k)) k
  = get_tracking_data_by_date db k
  /\ get_tracking_data_by_state (snd (get_tracking_data_by_state db k)) k
     = get_tracking_data_by_state db k
  /\ (forall l, data_by_date db !! k = Some l ->
      get_tracking_data_by_date db k = (l, db))
  /\ (forall l, data_by_state db !! k = Some l ->
      get_tracking_data_by_state db k = (l, db)).
Proof.
  destruct db as [objs bd bs].
  unfold get_tracking_data_by_date, get_tracking_data_by_state, dd_getitem.
  cbn [cdcObjs data_by_date data_by_state].
  split; [|split; [|split]].
  - destruct (bd !! k) as [l|] eqn:E; cbn; [by rewrite E|].
    by rewrite lookup_insert_eq.
  - destruct (bs !! k) as [l|] eqn:E; cbn; [by rewrite E|].
    by rewrite lookup_insert_eq.
  - by intros l ->.
  - by intros l ->.
Qed.

(** ** Further properties of [limit] and of the [query] command *)

Lemma or_int_nonzero a b : b <> 0 -> Main.or_int a b <> 0.
Proof.
  unfold Main.or_int. destruct a as [n|]; [|done].
  by destruct (Z.eqb_spec n 0).
Qed.

Lemma main_query_eq db args :
  Main.query db args
  = ((take (Z.to_nat (Main.or_int (Main.limit args) 50))
        (filter (fun r => matches args r = true) (cdcObjs db)),
      StopIteration), db).
Proof.
  unfold Main.query. rewrite query_typed. cbn [fst snd Main.limit_stream].
  by rewrite limit_nonzero by by apply or_int_nonzero.
Qed.

(** X12: whatever [n] is, [limit] returns a prefix of its input: it
    never reorders, repeats or adds an element, and never returns more
    than it was given. *)
Theorem limit_prefix {A} (l : list A) (n : option Z) :
  limit l n `prefix_of` l /\ (length (limit l n) <= length l)%nat.
Proof.
  assert (H : limit l n `prefix_of` l).
  { destruct n as [n|]; [|done].
    destruct (Z.eq_dec n 0) as [->|Hn]; [done|].
    rewrite limit_nonzero by done. apply prefix_take. }
  split; [done|]. by apply prefix_length.
Qed.

(** X13: limiting twice with positive bounds is limiting once with the
    smaller bound. *)
Theorem limit_compose {A} (l : list A) (a b : Z) (Ha : 0 < a) (Hb : 0 < b) :
  limit (limit l (Some a)) (Some b) = limit l (Some (Z.min a b)).
Proof.
  rewrite !limit_nonzero by lia. rewrite take_take. f_equal. lia.
Qed.

Lemma limit_compose_witness :
  0 < 3 /\ 0 < 2
  /\ limit (limit [10; 11; 12; 13; 14] (Some 3)) (Some 2)
     = limit [10; 11; 12; 13; 14] (Some (Z.min 3 2)).
Proof.
  split; [lia|]. split; [lia|].
  exact (limit_compose [10; 11; 12; 13; 14] 3 2 eq_refl eq_refl).
Defined.

(** X14: the [query] command prints the first [n] objects that
    satisfy every option, in load order, where [n] is the limit given
    or [50] when none is given; the loop ends normally and the
    database is as it was. *)
Theorem main_query_output (R : list CDCTrackingObject) (cs : list method)
  (args : Main.Namespace) :
  Main.query (run (init R) cs) args
  = ((take (Z.to_nat (Main.or_int (Main.limit args) 50))
        (filter (fun r => matches args r = true) R),
      StopIteration), run (init R) cs)
  /\ produced (Main.query (run (init R) cs) args)
       `prefix_of`
     produced (Database.query (run (init R) cs) (Main.filters_of args)).
Proof.
  rewrite main_query_eq, query_typed, reachable_cdcObjs.
  split; [done|]. unfold produced; cbn [fst]. apply prefix_take.
Qed.

(** X15: a limit of [0] on the command line does not lift the limit:
    as when no limit is given, the first fifty matches are printed and
    never more. *)
Theorem main_query_default_cap (R : list CDCTrackingObject)
  (cs : list method) (args : Main.Namespace)
  (H : Main.limit args = None \/ Main.limit args = Some 0) :
  produced (Main.query (run (init R) cs) args)
  = take 50 (filter (fun r => matches args r = true) R)
  /\ (length (produced (Main.query (run (init R) cs) args)) <= 50)%nat.
Proof.
  rewrite main_query_eq, reachable_cdcObjs. unfold produced; cbn [fst].
  assert (E : Z.to_nat (Main.or_int (Main.limit args) 50) = 50%nat)
    by (by destruct H as [-> | ->]).
  rewrite E. split; [done|]. rewrite length_take. lia.
Qed.

Lemma main_query_default_cap_witness :
  (Main.limit (only_limit (Some 0)) = None
   \/ Main.limit (only_limit (Some 0)) = Some 0)
  /\ produced (Main.query (run (init sample) []) (only_limit (Some 0)))
     = take 50 (filter (fun r => matches (only_limit (Some 0)) r = true)
                  sample).
Proof.
  assert (H : Main.limit (only_limit (Some 0)) = None
              \/ Main.limit (only_limit (Some 0)) = Some 0)
    by (right; reflexivity).
  split; [exact H|].
  exact (proj1 (main_query_default_cap sample [] (only_limit (Some 0)) H)).
Defined.

(** X16: with a negative limit the [query] command prints nothing,
    whatever matches. *)
Theorem main_query_negative_limit (R : list CDCTrackingObject)
  (cs : list method) (args : Main.Namespace) (n : Z)
  (Hl : Main.limit args = Some n) (Hn : n < 0) :
  fst (Main.query (run (init R) cs) args) = ([], StopIteration).
Proof.
  rewrite main_query_eq. cbn [fst]. rewrite Hl.
  unfold Main.or_int. destruct (Z.eqb_spec n 0); [lia|].
  by replace (Z.to_nat n) with O by lia.
Qed.

Lemma main_query_negative_limit_witness :
  Main.limit (only_limit (Some (-1))) = Some (-1) /\ -1 < 0
  /\ fst (Main.query (run (init sample) []) (only_limit (Some (-1))))
     = ([], StopIteration).
Proof.
  split; [reflexivity|]. split; [lia|].
  exact (main_query_negative_limit sample [] (only_limit (Some (-1))) (-1)
           eq_refl eq_refl).
Defined.

(** ** Properties of the loader *)

Section LoaderFacts.
Variable int : string -> option Z.
Variable cd_to_datetime : string -> option datetime.

(** The next coercion of the chain: when it raises, so does the row. *)
Ltac next_coercion :=
  match goal with
  | |- (Extract.coerce int ?c ≫= _) = None <-> _ =>
      destruct (Extract.coerce int c) eqn:?; cbn [mbind option_bind];
      [|by (split; [intros _; repeat (first [by left | right])|done])]
  | H : (Extract.coerce int ?c ≫= _) = Some _ |- _ =>
      destruct (Extract.coerce int c) eqn:?; cbn [mbind option_bind] in H;
      [|discriminate H]
  end.

Lemma load_line_none line :
  Extract.load_line int cd_to_datetime line = None <-> bad_counter int line.
Proof.
  unfold Extract.load_line, bad_counter, Extract.counters.
  rewrite !Exists_cons, Exists_nil.
  do 13 next_coercion.
  split; [done|]. intros H. repeat destruct H as [H|H]; done.
Qed.

Lemma load_line_some line o :
  Extract.load_line int cd_to_datetime line = Some o ->
  match o with
  | None => cd_to_datetime (Extract.date line) = None
  | Some obj =>
      cd_to_datetime (Extract.date line) = Some (date obj)
      /\ state obj = Extract.state line
      /\ Forall2 (fun cell x => Extract.coerce int cell = Some x)
           (Extract.counters line) (object_counters obj)
  end.
Proof.
  unfold Extract.load_line, Extract.counters. intros H.
  do 13 next_coercion.
  destruct (cd_to_datetime (Extract.date line)) as [dt|];
    injection H as <-; [|done].
  cbn. repeat split. repeat constructor; done.
Qed.

(** X17: a row becomes an object only when its date is accepted, and
    then the object has that date, the state of the row, and each
    counter read from its own cell, an empty or missing cell being
    read as [0]. *)
Theorem load_line_columns (line : Extract.row) (obj : CDCTrackingObject)
  (H : Extract.load_line int cd_to_datetime line = Some (Some obj)) :
  cd_to_datetime (Extract.date line) = Some (date obj)
  /\ state obj = Extract.state line
  /\ Forall2 (fun cell x => Extract.coerce int cell = Some x)
       (Extract.counters line) (object_counters obj)
  /\ Extract.coerce int None = Some 0
  /\ Extract.coerce int (Some ""%string) = Some 0.
Proof.
  destruct (load_line_some line (Some obj) H) as (Hd & Hs & Hc).
  repeat split; done.
Qed.

(** X18: the load raises exactly when some row has a counter cell
    that [int] rejects, whatever the dates are; otherwise it returns,
    in the order of the rows, one object for each row whose date is
    accepted, with the date and state of that row, and leaves the
    other rows out. *)
Theorem load_outcome (reader : list Extract.row) :
  match Extract.load_cdc_data int cd_to_datetime reader with
  | None => Exists (bad_counter int) reader
  | Some objs =>
      Forall (fun line => ~ bad_counter int line) reader
      /\ (fun o => (date o, state o)) <$> objs
         = omap (fun line =>
                   dt ← cd_to_datetime (Extract.date line);
                   Some (dt, Extract.state line)) reader
  end.
Proof.
  induction reader as [|line rest IH]; cbn [Extract.load_cdc_data].
  - split; [constructor|done].
  - destruct (Extract.load_line int cd_to_datetime line) as [o|] eqn:E; cbn.
    + assert (Hok : ~ bad_counter int line).
      { rewrite <- load_line_none. congruence. }
      apply load_line_some in E.
      destruct (Extract.load_cdc_data int cd_to_datetime rest) as [objs|];
        cbn.
      * destruct IH as [IH1 IH2]. split; [by constructor|].
        destruct o as [obj|].
        -- destruct E as (E1 & E2 & _).
           rewrite fmap_cons, IH2, E1, E2. done.
        -- rewrite E. cbn. done.
      * by apply Exists_cons_tl.
    + apply Exists_cons_hd. by apply load_line_none.
Qed.

End LoaderFacts.

Lemma load_line_columns_witness :
  Extract.load_line toy_int toy_date
    (mk_row "2021-02-01" "CA" (Some "40908"%string))
  = Some (Some (mk_obj feb_1 "CA" 40908 7 0 0))
  /\ toy_date (Extract.date (mk_row "2021-02-01" "CA" (Some "40908"%string)))
     = Some (date (mk_obj feb_1 "CA" 40908 7 0 0)).
Proof.
  split; [reflexivity|].
  exact (proj1 (load_line_columns toy_int toy_date
                  (mk_row "2021-02-01" "CA" (Some "40908"%string))
                  (mk_obj feb_1 "CA" 40908 7 0 0) eq_refl)).
Defined.

Example load_skips_bad_date :
  Extract.load_cdc_data toy_int toy_date
    [mk_row "2021-02-01" "CA" (Some "40908"%string);
     mk_row "01/02/2021" "WI" (Some "7"%string);
     mk_row "2021-02-02" "CA" None]
  = Some [mk_obj feb_1 "CA" 40908 7 0 0; mk_obj feb_2 "CA" 0 7 0 0].
Proof. reflexivity. Qed.

Example load_aborts_on_bad_counter :
  Extract.load_cdc_data toy_int toy_date
    [mk_row "2021-02-01" "CA" (Some "40908"%string);
     mk_row "01/02/2021" "WI" (Some "12.0"%string)]
  = None.
Proof. reflexivity. Qed.

(** ** An object and its own keys *)

(** X19: [date_str] never falls back to its placeholder text: it is
    the key of the object in [by_date]; and on a database built from
    [R], after any calls, looking up the [date_str] of an object of
    [R] returns a sequence that holds it, and so does looking up its
    state. *)
Theorem own_keys_find (R : list CDCTrackingObject) (cs : list method)
  (r : CDCTrackingObject) (Hr : r ∈ R) :
  date_str r = Helpers.datetime_to_str (date r)
  /\ r ∈ fst (get_tracking_data_by_date (run (init R) cs) (date_str r))
  /\ r ∈ fst (get_tracking_data_by_state (run (init R) cs) (state r)).
Proof.
  split; [done|].
  rewrite get_by_date_fst, get_by_state_fst.
  rewrite run_bucket_date, run_bucket_state.
  rewrite init_bucket_date, init_bucket_state.
  split.
  - by apply (elem_of_keyed date_key).
  - by apply (elem_of_keyed state_key).
Qed.

Lemma own_keys_find_witness :
  ca_2 ∈ sample
  /\ ca_2 ∈ fst (get_tracking_data_by_date
                   (run (init sample) [GetByDate "1999-12-31"])
                   (date_str ca_2)).
Proof.
  assert (H : ca_2 ∈ sample).
  { apply elem_of_cons. right. apply elem_of_cons. right.
    apply elem_of_cons. left. reflexivity. }
  split; [exact H|].
  exact (proj1 (proj2
    (own_keys_find sample [GetByDate "1999-12-31"%string] ca_2 H))).
Defined.
